(** * Job ingestion: spreadsheet rows to validated Job records

    A shallow embedding of [src/hooks/useJobs.ts]: the row validator
    [validateAndParseJob], its helper [isValidDate], and the orchestration
    inside the [useJobs] hook ([fetchJobs]).

    Modelling conventions.
    - A spreadsheet cell is a JavaScript primitive ([value]).  Strings are
      sequences of 8-bit code units; texts with a code unit from 256 on
      are outside the model.
    - A numeric cell is [VNum z], an integer-valued number.  The numbers
      of the language are doubles: [VNum z] is one of them, printed by
      [toString] and read back by [parseInt] as the code does, for [z] up
      to 2^53 in magnitude ([maxExactInteger]).  Fractional cells and
      larger magnitudes are outside the model, so the statements about
      salary numbers carry that bound, and what the code does with the
      texts such cells print as ("50000.75", "1e+21") is stated on the
      texts.
    - A row is a JavaScript object used as a map from column name to cell:
      [gmap string value]; reading an absent property gives [undefined].
    - Exceptions are explicit: a computation that may throw has type
      [result A], and [try_catch] is the [try { } catch { }] statement.
    - [console.error] calls do not change any value computed and are left out.
    - The built-in [Date] parser is specified by ECMAScript only for the
      ISO date-time format; what it does on any other text is up to the
      engine and is a parameter ([legacyDateParse]).  The clock read by
      [new Date()] is a parameter too. *)

From Stdlib Require Import ZArith Ascii String List Lia.
From Stdlib Require Import Numbers.DecimalString Numbers.DecimalPos.
From stdpp Require Import base option list sorting gmap strings.

Local Open Scope string_scope.
Local Open Scope Z_scope.

(** ** JavaScript values and exceptions *)

Module JS.

(** The primitives a decoded cell can hold, plus [undefined] for an absent
    property.  [VNum z] is the number [z], an integer; it is a number of
    the language, a double, when [z] is at most 2^53 in magnitude. *)
Inductive value :=
| VUndefined
| VNull
| VBool (b : bool)
| VNum (z : Z)
| VStr (s : string).

(** A thrown value: an [Error] object (with its constructor name and
    message) or anything else ([throw] accepts every value). *)
Inductive exn :=
| ErrorObj (name message : string)
| NonError.

Inductive result (A : Type) :=
| Return (a : A)
| Throw (e : exn).
Arguments Return {A} a.
Arguments Throw {A} e.

#[global] Instance result_ret : MRet result := fun _ a => Return a.
#[global] Instance result_bind : MBind result := fun _ _ f m =>
  match m with
  | Return a => f a
  | Throw e => Throw e
  end.

(** [try { body } catch (e) { handler e }] *)
Definition try_catch {A} (body : result A) (handler : exn -> result A) : result A :=
  match body with
  | Return a => Return a
  | Throw e => handler e
  end.

(** [err instanceof Error ? err.message : fallback] *)
Definition message_or (fallback : string) (e : exn) : string :=
  match e with
  | ErrorObj _ m => m
  | NonError => fallback
  end.

(** ToBoolean: what [!v] and [v || d] test. *)
Definition truthy (v : value) : bool :=
  match v with
  | VUndefined | VNull => false
  | VBool b => b
  | VNum z => negb (z =? 0)
  | VStr s => negb (String.eqb s "")
  end.

(** [Number.prototype.toString] on an integer: an optional minus sign and
    the decimal digits.  This is what the code prints for the integers up
    to 2^53 in magnitude; past them not every integer is a double, and
    from 10^21 on the code prints an exponent. *)
Definition Z_toString (z : Z) : string := NilZero.string_of_int (Z.to_int z).

(** [v.toString()]: a property read on [undefined] or [null] throws. *)
Definition toString (v : value) : result string :=
  match v with
  | VUndefined => Throw (ErrorObj "TypeError" "Cannot read properties of undefined (reading 'toString')")
  | VNull => Throw (ErrorObj "TypeError" "Cannot read properties of null (reading 'toString')")
  | VBool true => Return "true"
  | VBool false => Return "false"
  | VNum z => Return (Z_toString z)
  | VStr s => Return s
  end.

(** [v?.toString()]: [None] stands for the [undefined] the optional chain
    gives on [undefined] and [null]. *)
Definition toString_opt (v : value) : option string :=
  match v with
  | VUndefined | VNull => None
  | VBool true => Some "true"
  | VBool false => Some "false"
  | VNum z => Some (Z_toString z)
  | VStr s => Some s
  end.

(** [s || d] for [s : string | undefined]. *)
Definition or_default (s : option string) (d : string) : string :=
  match s with
  | None => d
  | Some s => if String.eqb s "" then d else s
  end.

(** *** [String.prototype.split] with a one-character separator *)
Fixpoint split (sep : ascii) (s : string) : list string :=
  match s with
  | EmptyString => [EmptyString]
  | String c s' =>
      if Ascii.eqb c sep then EmptyString :: split sep s'
      else match split sep s' with
           | seg :: segs => String c seg :: segs
           | [] => [String c EmptyString]
           end
  end.

(** [arr.filter(Boolean)] on an array of strings *)
Definition filter_Boolean (l : list string) : list string :=
  List.filter (fun s => negb (String.eqb s "")) l.

(** [arr.join(sep)] *)
Fixpoint join (sep : string) (l : list string) : string :=
  match l with
  | [] => ""
  | [s] => s
  | s :: rest => s +:+ sep +:+ join sep rest
  end.

(** *** [parseInt(s, 10)] *)

Inductive number :=
| Int (z : Z)
| NaN.

(** StrWhiteSpaceChar, within 8-bit code units. *)
Definition isStrWhiteSpace (c : ascii) : bool :=
  let n := nat_of_ascii c in
  ((9 <=? n) && (n <=? 13) || (n =? 32) || (n =? 160))%nat.

Fixpoint trimStart (s : string) : string :=
  match s with
  | String c s' => if isStrWhiteSpace c then trimStart s' else s
  | EmptyString => EmptyString
  end.

Definition digitValue (c : ascii) : option Z :=
  let n := nat_of_ascii c in
  if ((48 <=? n) && (n <=? 57))%nat then Some (Z.of_nat n - 48) else None.

(** The value of the longest prefix of decimal digits, after [acc]. *)
Fixpoint parseDigits (acc : Z) (s : string) : Z :=
  match s with
  | String c s' =>
      match digitValue c with
      | Some d => parseDigits (10 * acc + d) s'
      | None => acc
      end
  | EmptyString => acc
  end.

(** One optional sign in front: the sign and what follows it. *)
Definition stripSign (s : string) : Z * string :=
  match s with
  | String c r =>
      if Ascii.eqb c "-" then (-1, r)
      else if Ascii.eqb c "+" then (1, r)
      else (1, s)
  | EmptyString => (1, s)
  end.

(** White space is skipped, one sign is read, then the longest run of
    digits; with no digit there the result is [NaN].  The result here is
    the exact integer the digits write; the code rounds it to a double,
    which leaves every integer up to 2^53 in magnitude as it is. *)
Definition parseInt10 (s : string) : number :=
  let '(sign, digits) := stripSign (trimStart s) in
  match digits with
  | String c r =>
      match digitValue c with
      | Some d => Int (sign * parseDigits d r)
      | None => NaN
      end
  | EmptyString => NaN
  end.

(** [n || 0]: [NaN] and zero are falsy. *)
Definition or_zero (n : number) : Z :=
  match n with
  | Int z => if z =? 0 then 0 else z
  | NaN => 0
  end.

End JS.
Import JS.

(** ** The built-in [Date] *)

Module Date.

Definition msPerDay : Z := 86400000.

(** *** Time value to calendar fields (ECMAScript "Year Number", "Month
    Number", "Date Number"), computed from the day number in the
    proleptic Gregorian calendar. *)

Definition Day (t : Z) : Z := t / msPerDay.
Definition TimeWithinDay (t : Z) : Z := t mod msPerDay.

Record civil := { c_year : Z; c_month : Z; c_day : Z }.

(** Days since 1970-01-01 to (year, month 1..12, day 1..31).  Years are
    counted from 1 March in 400-year eras of 146097 days. *)
Definition civil_of_days (days : Z) : civil :=
  let z := days + 719468 in
  let era := z / 146097 in
  let doe := z mod 146097 in
  let yoe := (doe - doe / 1460 + doe / 36524 - doe / 146096) / 365 in
  let doy := doe - (365 * yoe + yoe / 4 - yoe / 100) in
  let mp := (5 * doy + 2) / 153 in
  let d := doy - (153 * mp + 2) / 5 + 1 in
  let m := if mp <? 10 then mp + 3 else mp - 9 in
  {| c_year := yoe + era * 400 + (if m <=? 2 then 1 else 0);
     c_month := m;
     c_day := d |}.

Definition YearFromTime (t : Z) : Z := c_year (civil_of_days (Day t)).
Definition MonthFromTime (t : Z) : Z := c_month (civil_of_days (Day t)).
Definition DateFromTime (t : Z) : Z := c_day (civil_of_days (Day t)).
Definition HourFromTime (t : Z) : Z := (TimeWithinDay t / 3600000) mod 24.
Definition MinFromTime (t : Z) : Z := (TimeWithinDay t / 60000) mod 60.
Definition SecFromTime (t : Z) : Z := (TimeWithinDay t / 1000) mod 60.
Definition msFromTime (t : Z) : Z := TimeWithinDay t mod 1000.

Definition digitChar (d : Z) : ascii := ascii_of_nat (48 + Z.to_nat d).

(** The last [w] decimal digits of [n], most significant first: [n] padded
    with zeros to width [w] when [0 <= n < 10^w]. *)
Fixpoint padDigits (w : nat) (n : Z) : string :=
  match w with
  | O => ""
  | S w' => padDigits w' (n / 10) +:+ String (digitChar (n mod 10)) ""
  end.

(** Years 0 to 9999 print as four digits, all others as a sign and six. *)
Definition yearString (y : Z) : string :=
  if (0 <=? y) && (y <=? 9999) then padDigits 4 y
  else if y <? 0 then "-" +:+ padDigits 6 (- y)
  else "+" +:+ padDigits 6 y.

(** [Date.prototype.toISOString] of the time value [t]. *)
Definition toISOString (t : Z) : string :=
  yearString (YearFromTime t) +:+ "-" +:+ padDigits 2 (MonthFromTime t) +:+ "-" +:+
  padDigits 2 (DateFromTime t) +:+ "T" +:+ padDigits 2 (HourFromTime t) +:+ ":" +:+
  padDigits 2 (MinFromTime t) +:+ ":" +:+ padDigits 2 (SecFromTime t) +:+ "." +:+
  padDigits 3 (msFromTime t) +:+ "Z".

(** *** The ECMAScript date-time string format

    [YYYY], [YYYY-MM] or [YYYY-MM-DD], optionally followed by [THH:mm],
    [THH:mm:ss] or [THH:mm:ss.sss] and then optionally by [Z] or an
    offset [+HH:mm] / [-HH:mm].  Every conforming engine parses a text of
    this shape with legal field values to a valid time value. *)

Definition digits2 (s : string) : option (Z * string) :=
  match s with
  | String a (String b r) =>
      match digitValue a, digitValue b with
      | Some x, Some y => Some (10 * x + y, r)
      | _, _ => None
      end
  | _ => None
  end.

Definition digits3 (s : string) : option (Z * string) :=
  match s with
  | String a r =>
      match digitValue a, digits2 r with
      | Some x, Some (y, r') => Some (100 * x + y, r')
      | _, _ => None
      end
  | _ => None
  end.

Definition digits4 (s : string) : option (Z * string) :=
  match digits2 s with
  | Some (hi, r) =>
      match digits2 r with
      | Some (lo, r') => Some (100 * hi + lo, r')
      | None => None
      end
  | None => None
  end.

Definition isLeapYear (y : Z) : bool :=
  (y mod 4 =? 0) && (negb (y mod 100 =? 0) || (y mod 400 =? 0)).

Definition daysInMonth (y m : Z) : Z :=
  if m =? 2 then (if isLeapYear y then 29 else 28)
  else if (m =? 4) || (m =? 6) || (m =? 9) || (m =? 11) then 30
  else 31.

(** The offset part and the end of the text. *)
Definition isoOffset (s : string) : bool :=
  match s with
  | "" => true
  | "Z" => true
  | String c r =>
      if Ascii.eqb c "+" || Ascii.eqb c "-" then
        match digits2 r with
        | Some (h, String ":" r') =>
            match digits2 r' with
            | Some (m, "") => (h <=? 23) && (m <=? 59)
            | _ => false
            end
        | _ => false
        end
      else false
  end.

(** The time part, after the [T]: [HH:mm], then [:ss], then [.sss].
    Hour 24 is allowed only as 24:00:00.000, the end of the day. *)
Definition isoTime (s : string) : bool :=
  match digits2 s with
  | Some (h, String ":" r) =>
      match digits2 r with
      | Some (m, r1) =>
          match r1 with
          | String ":" r2 =>
              match digits2 r2 with
              | Some (sec, r3) =>
                  match r3 with
                  | String "." r4 =>
                      match digits3 r4 with
                      | Some (ms, r5) =>
                          ((h <=? 23) && (m <=? 59) && (sec <=? 59)
                           || (h =? 24) && (m =? 0) && (sec =? 0) && (ms =? 0))
                          && isoOffset r5
                      | None => false
                      end
                  | _ =>
                      ((h <=? 23) && (m <=? 59) && (sec <=? 59)
                       || (h =? 24) && (m =? 0) && (sec =? 0))
                      && isoOffset r3
                  end
              | None => false
              end
          | _ =>
              ((h <=? 23) && (m <=? 59) || (h =? 24) && (m =? 0)) && isoOffset r1
          end
      | None => false
      end
  | _ => false
  end.

(** What may follow the date part: nothing, or [T] and a time. *)
Definition isoRest (s : string) : bool :=
  match s with
  | "" => true
  | String "T" r => isoTime r
  | _ => false
  end.

Definition isoDateTime (s : string) : bool :=
  match digits4 s with
  | Some (y, r) =>
      match r with
      | String "-" r1 =>
          match digits2 r1 with
          | Some (m, r2) =>
              (1 <=? m) && (m <=? 12) &&
              match r2 with
              | String "-" r3 =>
                  match digits2 r3 with
                  | Some (d, r4) => (1 <=? d) && (d <=? daysInMonth y m) && isoRest r4
                  | None => false
                  end
              | _ => isoRest r2
              end
          | None => false
          end
      | _ => isoRest r
      end
  | None => false
  end.

End Date.

(** ** Rows and Jobs *)

(** [RawJobData]: the object the sheet decoder builds for one row, keyed by
    the header cells.  A column whose cell is empty has no key. *)
Abbreviation RawJobData := (gmap string value).

(** [row.K] *)
Definition prop (row : RawJobData) (k : string) : value :=
  default VUndefined (row !! k).

Record Salary := { min : Z; max : Z; currency : string }.

(** [Job] of [types/job.ts].  The [type] field holds whatever text the
    [as] cast let through: the cast has no run-time effect. *)
Record Job := {
  id : string;
  title : string;
  company : string;
  location : string;
  type : string;
  description : string;
  requirements : list string;
  salary : Salary;
  postedDate : string;
  applicationUrl : string;
  companyLogo : string
}.

Definition defaultLogo : string :=
  "https://images.unsplash.com/photo-1560179707-f14e90ef3623?w=100&h=100&fit=crop".

(** The newline character, ['\n']. *)
Definition LF : ascii := ascii_of_nat 10.

Section Validator.

(** Whether the engine's fallback parser accepts a text that is not in the
    ECMAScript date-time format (implementation-defined). *)
Variable legacyDateParse : string -> bool.

(** [!isNaN(new Date(s).getTime())] for a string [s]. *)
Definition Date_parses (s : string) : bool :=
  Date.isoDateTime s || legacyDateParse s.

(** [isValidDate]: the call site passes [row.PostedDate?.toString()],
    which may be [undefined]; [new Date(undefined)] is an invalid date.
    The constructor does not throw, so the [catch] branch is dead. *)
Definition isValidDate (dateString : option string) : bool :=
  match dateString with
  | None => false
  | Some s => Date_parses s
  end.

(** [new Date().toISOString().split('T')[0]], the clock reading [now].
    Element 0 is always there: [split] never gives the empty array. *)
Definition today (now : Z) : string :=
  match split "T" (Date.toISOString now) with
  | seg :: _ => seg
  | [] => ""
  end.

(** The body of the [try] block of [validateAndParseJob]. *)
Definition validateAndParseJob_try (now : Z) (row : RawJobData) : result (option Job) :=
  if negb (truthy (prop row "ID")) || negb (truthy (prop row "Title"))
     || negb (truthy (prop row "Company"))
  then Return None
  else
    postedDate ←
      (if isValidDate (toString_opt (prop row "PostedDate"))
       then toString (prop row "PostedDate")
       else Return (today now));
    id ← toString (prop row "ID");
    title ← toString (prop row "Title");
    company ← toString (prop row "Company");
    location ← toString (prop row "Location");
    let type := or_default (toString_opt (prop row "Type")) "FULL_TIME" in
    description ← toString (prop row "Description");
    requirementsText ← toString (prop row "Requirements");
    let requirements := filter_Boolean (split LF requirementsText) in
    salaryMin ← toString (prop row "SalaryMin");
    let min := or_zero (parseInt10 salaryMin) in
    salaryMax ← toString (prop row "SalaryMax");
    let max := or_zero (parseInt10 salaryMax) in
    let currency := or_default (toString_opt (prop row "SalaryCurrency")) "USD" in
    let applicationUrl := or_default (toString_opt (prop row "ApplicationUrl")) "#" in
    let companyLogo := or_default (toString_opt (prop row "CompanyLogo")) defaultLogo in
    Return (Some {|
      id := id; title := title; company := company; location := location;
      type := type; description := description; requirements := requirements;
      salary := {| min := min; max := max; currency := currency |};
      postedDate := postedDate; applicationUrl := applicationUrl;
      companyLogo := companyLogo |}).

(** [validateAndParseJob]: the [try] block, with every exception turned
    into [null] by the [catch]. *)
Definition validateAndParseJob (now : Z) (row : RawJobData) : result (option Job) :=
  try_catch (validateAndParseJob_try now row) (fun _ => Return None).

(** ** The orchestration in [useJobs] *)

(** [jsonData.map(validateAndParseJob)]: the callback runs on the rows from
    left to right and an exception escaping it would end the whole [map].
    [clock i] is what [new Date()] reads while row [i] is validated. *)
Fixpoint map_validate (clock : nat -> Z) (i : nat) (rows : list RawJobData)
  : result (list (option Job)) :=
  match rows with
  | [] => Return []
  | row :: rest =>
      r ← validateAndParseJob (clock i) row;
      rs ← map_validate clock (S i) rest;
      Return (r :: rs)
  end.

(** [.filter((job): job is Job => job !== null)] *)
Fixpoint filter_nonnull (l : list (option Job)) : list Job :=
  match l with
  | [] => []
  | Some j :: rest => j :: filter_nonnull rest
  | None :: rest => filter_nonnull rest
  end.

(** The decoder library ([xlsx]): a workbook has an ordered list of sheet
    names and a table from names to sheets. *)
Context {ArrayBuffer WorkSheet : Type}.

Record WorkBook := {
  SheetNames : list string;
  Sheets : gmap string WorkSheet
}.

(** [workbook.Sheets[workbook.SheetNames[0]]]; a name without an entry in
    the table reads as [undefined]. *)
Definition firstSheet (workbook : WorkBook) : option WorkSheet :=
  match SheetNames workbook with
  | name :: _ => Sheets workbook !! name
  | [] => None
  end.

(** [read] and [utils.sheet_to_json] are the library's; either may throw.
    [sheet_to_json] is applied to [workbook.Sheets[name]], which is
    [undefined] ([None]) when the table has no such sheet. *)
Variable read : ArrayBuffer -> result WorkBook.
Variable sheet_to_json : option WorkSheet -> result (list RawJobData).

(** What the network did: [fetch] rejected, or it gave a response with its
    [ok] flag and the outcome of [arrayBuffer()]. *)
Inductive FetchOutcome :=
| FetchRejected (e : exn)
| Response (ok : bool) (body : result ArrayBuffer).

(** The hook's state: [jobs], [loading], [error]. *)
Record HookState := {
  jobs : list Job;
  loading : bool;
  error : option string
}.

Definition initialState : HookState :=
  {| jobs := []; loading := true; error := None |}.

(** Lines 81 to 96: from the bytes to the parsed jobs. *)
Definition ingest (clock : nat -> Z) (arrayBuffer : ArrayBuffer) : result (list Job) :=
  workbook ← read arrayBuffer;
  if (List.length (SheetNames workbook) =? 0)%nat
  then Throw (ErrorObj "Error" "Excel file is empty")
  else
    let worksheet := firstSheet workbook in
    jsonData ← sheet_to_json worksheet;
    validated ← map_validate clock 0 jsonData;
    let parsedJobs := filter_nonnull validated in
    if (List.length parsedJobs =? 0)%nat
    then Throw (ErrorObj "Error" "No valid jobs found in the file")
    else Return parsedJobs.

(** The [try] block of [fetchJobs]. *)
Definition fetchJobs_try (clock : nat -> Z) (net : FetchOutcome) : result (list Job) :=
  match net with
  | FetchRejected e => Throw e
  | Response ok body =>
      if negb ok then Throw (ErrorObj "Error" "Failed to fetch jobs file")
      else arrayBuffer ← body; ingest clock arrayBuffer
  end.

(** [fetchJobs], run once on the initial state by the effect. *)
Definition fetchJobs (clock : nat -> Z) (net : FetchOutcome) (st : HookState) : HookState :=
  match fetchJobs_try clock net with
  | Return parsedJobs =>
      {| jobs := parsedJobs; loading := false; error := error st |}
  | Throw err =>
      {| jobs := jobs st; loading := false;
         error := Some (message_or "Failed to fetch jobs" err) |}
  end.

(** [useJobs]: the state the hook returns once the effect has run. *)
Definition useJobs (clock : nat -> Z) (net : FetchOutcome) : HookState :=
  fetchJobs clock net initialState.

End Validator.

(** ** Vocabulary of the properties *)

(** The cell is missing ([undefined], [null]) or its text is empty. *)
Definition missing_or_empty (v : value) : bool :=
  match toString_opt v with
  | None => true
  | Some s => String.eqb s ""
  end.

(** The cell is there: [.toString()] can be called on it. *)
Definition present (v : value) : bool :=
  match v with
  | VUndefined | VNull => false
  | _ => true
  end.

Definition isDigit (c : ascii) : bool :=
  match digitValue c with
  | Some _ => true
  | None => false
  end.

(** The shape YYYY-MM-DD: ten characters, digits around two hyphens. *)
Definition isYMD (s : string) : bool :=
  match s with
  | String y1 (String y2 (String y3 (String y4 (String "-"
      (String m1 (String m2 (String "-" (String d1 (String d2 ""))))))))) =>
      isDigit y1 && isDigit y2 && isDigit y3 && isDigit y4
      && isDigit m1 && isDigit m2 && isDigit d1 && isDigit d2
  | _ => false
  end.

(** One of the four names of the [type] union. *)
Definition isJobType (s : string) : bool :=
  String.eqb s "FULL_TIME" || String.eqb s "PART_TIME"
  || String.eqb s "CONTRACT" || String.eqb s "FREELANCE".

(** Only white space, and at least one character of it. *)
Fixpoint allWhiteSpace (s : string) : bool :=
  match s with
  | "" => true
  | String c s' => isStrWhiteSpace c && allWhiteSpace s'
  end.

Definition isBlank (s : string) : bool :=
  negb (String.eqb s "") && allWhiteSpace s.



(** No occurrence of the character [c]. *)
Fixpoint lacks (c : ascii) (s : string) : bool :=
  match s with
  | "" => true
  | String a s' => negb (Ascii.eqb a c) && lacks c s'
  end.

(** The clock readings from 0000-01-01T00:00:00.000Z up to
    9999-12-31T23:59:59.999Z: those whose UTC year prints with four digits. *)
Definition fourDigitYear (now : Z) : Prop :=
  -62167219200000 <= now < 253402300800000.

(** The UTC date of a time value, written YYYY-MM-DD. *)
Definition utcDate (t : Z) : string :=
  Date.padDigits 4 (Date.YearFromTime t) +:+ "-" +:+
  Date.padDigits 2 (Date.MonthFromTime t) +:+ "-" +:+
  Date.padDigits 2 (Date.DateFromTime t).

(** What [toISOString] writes after the date and the [T]. *)
Definition utcTime (t : Z) : string :=
  Date.padDigits 2 (Date.HourFromTime t) +:+ ":" +:+
  Date.padDigits 2 (Date.MinFromTime t) +:+ ":" +:+
  Date.padDigits 2 (Date.SecFromTime t) +:+ "." +:+
  Date.padDigits 3 (Date.msFromTime t) +:+ "Z".

(** The jobs of the rows that pass validation, in the order of the rows;
    row number [i] is validated at [clock i]. *)
Fixpoint survivors (legacyDateParse : string -> bool) (clock : nat -> Z) (i : nat)
  (rows : list RawJobData) : list Job :=
  match rows with
  | [] => []
  | row :: rest =>
      match validateAndParseJob legacyDateParse (clock i) row with
      | Return (Some j) => j :: survivors legacyDateParse clock (S i) rest
      | _ => survivors legacyDateParse clock (S i) rest
      end
  end.

(** *** Batch outcomes, in the words of the error taxonomy *)

Section BatchOutcomes.

Context {ArrayBuffer WorkSheet : Type}.
Variable legacyDateParse : string -> bool.
Variable read : ArrayBuffer -> result (@WorkBook WorkSheet).
Variable sheet_to_json : option WorkSheet -> result (list RawJobData).
Variable clock : nat -> Z.
Variable arrayBuffer : ArrayBuffer.

(** DecodeError: the decoder throws, in [read] or in [sheet_to_json]. *)
Definition decodeFails : Prop :=
  (exists e, read arrayBuffer = Throw e)
  \/ (exists wb e, read arrayBuffer = Return wb /\ SheetNames wb <> []
                   /\ sheet_to_json (firstSheet wb) = Throw e).

(** EmptyWorkbookError: the workbook has no sheet. *)
Definition zeroSheets : Prop :=
  exists wb, read arrayBuffer = Return wb /\ SheetNames wb = [].

(** NoValidRowsError: the first sheet decodes and no row of it survives. *)
Definition noRowSurvives : Prop :=
  exists wb rows, read arrayBuffer = Return wb /\ SheetNames wb <> []
                  /\ sheet_to_json (firstSheet wb) = Return rows
                  /\ survivors legacyDateParse clock 0 rows = [].

End BatchOutcomes.

(** The bytes never arrive: the fetch is rejected, the response is not ok,
    or its body cannot be read. *)
Definition fetchFails {ArrayBuffer : Type} (net : @FetchOutcome ArrayBuffer) : Prop :=
  match net with
  | FetchRejected _ => True
  | Response ok body => ok = false \/ exists e, body = Throw e
  end.

(** ** Sample data *)

(** An engine with no fallback parser: only the ECMAScript format parses. *)
Definition strictEngine : string -> bool := fun _ => false.

(** 2023-11-14T22:13:20.000Z, and a clock that ticks once per row. *)
Definition sampleNow : Z := 1700000000000.
Definition sampleClock : nat -> Z := fun i => sampleNow + Z.of_nat i.

(** The text "A\nB\n\nC". *)
Definition sampleRequirements : string :=
  "A" +:+ String LF ("B" +:+ String LF (String LF "C")).

Definition sampleRow : RawJobData :=
  {[ "ID" := VNum 1; "Title" := VStr "Developer"; "Company" := VStr "Acme";
     "Location" := VStr "Paris"; "Type" := VStr "PART_TIME";
     "Description" := VStr "Builds things";
     "Requirements" := VStr sampleRequirements;
     "SalaryMin" := VStr "50000"; "SalaryMax" := VNum 70000;
     "SalaryCurrency" := VStr "EUR"; "PostedDate" := VStr "2024-03-01";
     "ApplicationUrl" := VStr "https://example.com/apply" ]}.

(** The sample row with one cell changed or emptied. *)
Definition rowIdZero : RawJobData := <["ID" := VNum 0]> sampleRow.
Definition rowNoCompany : RawJobData := delete "Company" sampleRow.
Definition rowBlankTitle : RawJobData := <["Title" := VStr "   "]> sampleRow.
Definition rowNoLocation : RawJobData := delete "Location" sampleRow.
Definition rowBadType : RawJobData := <["Type" := VStr "INVALID_TYPE"]> sampleRow.
Definition rowNoType : RawJobData := delete "Type" sampleRow.
Definition rowNoSalaryMin : RawJobData := delete "SalaryMin" sampleRow.
Definition rowBadDate : RawJobData := <["PostedDate" := VStr "not-a-date"]> sampleRow.
Definition rowInstant : RawJobData :=
  <["PostedDate" := VStr "2024-03-01T10:00:00Z"]> sampleRow.

(** The Job of [sampleRow]. *)
Definition sampleJob : Job :=
  {| id := "1"; title := "Developer"; company := "Acme"; location := "Paris";
     type := "PART_TIME"; description := "Builds things";
     requirements := ["A"; "B"; "C"];
     salary := {| min := 50000; max := 70000; currency := "EUR" |};
     postedDate := "2024-03-01";
     applicationUrl := "https://example.com/apply";
     companyLogo := defaultLogo |}.

(** [sampleJob] with another type, salary or postedDate. *)
Definition withType (t : string) (j : Job) : Job :=
  {| id := id j; title := title j; company := company j; location := location j;
     type := t; description := description j; requirements := requirements j;
     salary := salary j; postedDate := postedDate j;
     applicationUrl := applicationUrl j; companyLogo := companyLogo j |}.


Definition withPostedDate (d : string) (j : Job) : Job :=
  {| id := id j; title := title j; company := company j; location := location j;
     type := type j; description := description j; requirements := requirements j;
     salary := salary j; postedDate := d;
     applicationUrl := applicationUrl j; companyLogo := companyLogo j |}.

(** The Jobs of [rowNoType], [rowBadType], [rowTextSalary],
    [rowPrefixSalary], [rowBadDate] (validated on 2023-11-14) and
    [rowInstant]. *)
Definition jobNoType : Job := withType "FULL_TIME" sampleJob.
Definition jobBadType : Job := withType "INVALID_TYPE" sampleJob.
Definition jobBadDate : Job := withPostedDate "2023-11-14" sampleJob.
Definition jobInstant : Job := withPostedDate "2024-03-01T10:00:00Z" sampleJob.

(** Decoders for the samples: the bytes are the rows of the only sheet; a
    workbook without sheets; bytes that cannot be read. *)
Definition sampleRead (rows : list RawJobData) : result (@WorkBook (list RawJobData)) :=
  Return {| SheetNames := ["Jobs"]; Sheets := {[ "Jobs" := rows ]} |}.

Definition emptyRead (rows : list RawJobData) : result (@WorkBook (list RawJobData)) :=
  Return {| SheetNames := []; Sheets := ∅ |}.

Definition failingRead (rows : list RawJobData) : result (@WorkBook (list RawJobData)) :=
  Throw (ErrorObj "Error" "Unsupported file").

Definition sampleSheetToJson (sheet : option (list RawJobData)) : result (list RawJobData) :=
  Return (default [] sheet).

(** ** More vocabulary *)

(** The thirteen properties [validateAndParseJob] reads from a row. *)
Definition columns : list string :=
  ["ID"; "Title"; "Company"; "Location"; "Type"; "Description"; "Requirements";
   "SalaryMin"; "SalaryMax"; "SalaryCurrency"; "PostedDate"; "ApplicationUrl";
   "CompanyLogo"].

(** Only newline characters (none at all included). *)
Fixpoint allNewlines (s : string) : bool :=
  match s with
  | "" => true
  | String c s' => Ascii.eqb c LF && allNewlines s'
  end.

(** Two Jobs that differ at most in their postedDate. *)
Definition sameButPostedDate (j1 j2 : Job) : Prop :=
  id j1 = id j2 /\ title j1 = title j2 /\ company j1 = company j2
  /\ location j1 = location j2 /\ type j1 = type j2
  /\ description j1 = description j2 /\ requirements j1 = requirements j2
  /\ salary j1 = salary j2 /\ applicationUrl j1 = applicationUrl j2
  /\ companyLogo j1 = companyLogo j2.

(** The cells [validateAndParseJob] cannot do without: ID, Title and
    Company truthy, and the five cells it calls [.toString()] on present. *)
Definition usable (row : RawJobData) : bool :=
  truthy (prop row "ID") && truthy (prop row "Title") && truthy (prop row "Company")
  && present (prop row "Location") && present (prop row "Description")
  && present (prop row "Requirements")
  && present (prop row "SalaryMin") && present (prop row "SalaryMax").

(** The column names the upload page tells the administrator to use
    (the list items of [AdminUpload]). *)
Definition documentedColumns : list string :=
  ["id"; "title"; "company"; "location"; "type"; "description"; "requirements";
   "salaryMin"; "salaryMax"; "salaryCurrency"; "postedDate"; "applicationUrl";
   "companyLogo"].

(** A row decoded from a sheet whose header cells are among [names]. *)
Definition headersAmong (names : list string) (row : RawJobData) : Prop :=
  forall k, is_Some (row !! k) -> k ∈ names.

(** What every Job handed to the pages satisfies: the texts that must be
    there are there, each requirement is one non-empty line, and the
    postedDate is a date for the Date constructor. *)
Definition wellFormedJob (legacyDateParse : string -> bool) (j : Job) : Prop :=
  id j <> "" /\ title j <> "" /\ company j <> ""
  /\ type j <> "" /\ currency (salary j) <> ""
  /\ applicationUrl j <> "" /\ companyLogo j <> ""
  /\ Forall (fun r => r <> "" /\ lacks LF r = true) (requirements j)
  /\ Date_parses legacyDateParse (postedDate j) = true.

(** ** More sample data *)

(** A clock that stands still. *)
Definition steadyClock : nat -> Z := fun _ => sampleNow.

(** The sample row with a column the validator does not know, with headers
    as the upload page documents them, and with one requirement per line. *)
Definition rowExtraColumn : RawJobData := <["Notes" := VStr "internal"]> sampleRow.

Definition rowLowercase : RawJobData :=
  {[ "id" := VNum 1; "title" := VStr "Developer"; "company" := VStr "Acme";
     "location" := VStr "Paris"; "description" := VStr "Builds things";
     "requirements" := VStr "A"; "salaryMin" := VNum 50000;
     "salaryMax" := VNum 70000 ]}.

Definition rowThreeLines : RawJobData :=
  <["Requirements" := VStr (join (String LF "") ["A"; "B"; "C"])]> sampleRow.

Definition rowEmptyTexts : RawJobData :=
  <["Location" := VStr ""]> (<["Description" := VStr ""]>
    (<["Requirements" := VStr (String LF (String LF ""))]>
      (<["ApplicationUrl" := VStr ""]> sampleRow))).

(** The Job of [rowEmptyTexts]. *)
Definition jobEmptyTexts : Job :=
  {| id := "1"; title := "Developer"; company := "Acme"; location := "";
     type := "PART_TIME"; description := ""; requirements := [];
     salary := {| min := 50000; max := 70000; currency := "EUR" |};
     postedDate := "2024-03-01"; applicationUrl := "#";
     companyLogo := defaultLogo |}.

(** ** The upload page ([AdminUpload]) *)

Module AdminUpload.

(** The state of the component: [uploading], [error]. *)
Record State := {
  uploading : bool;
  error : option string
}.

(** What the page does besides setting its state. *)
Inductive Effect :=
| ConsoleLog (jsonData : list RawJobData)
| Alert (message : string)
| Navigate (to : string).

Definition successMessage : string :=
  "Excel file uploaded successfully! In a real application, this would update the jobs database.".

Definition parseErrorMessage : string :=
  "Error parsing Excel file. Please check the format.".

Section Upload.

Context {File ArrayBuffer WorkSheet : Type}.

(** [read(data, { type: 'array' })] and [utils.sheet_to_json], the
    library's; [data] is [e.target?.result], which may be missing. *)
Variable read : option ArrayBuffer -> result (@WorkBook WorkSheet).
Variable sheet_to_json : option WorkSheet -> result (list RawJobData).

(** What the FileReader does with the file: creating or starting it
    throws, or it fires [error], or it fires [load] with the bytes. *)
Inductive ReaderOutcome :=
| ReaderThrows (e : exn)
| ReaderError
| ReaderLoad (data : option ArrayBuffer).

(** [workbook.Sheets[workbook.SheetNames[0]]], here without a check that
    there is a sheet: with no name the key read is ["undefined"]. *)
Definition firstSheetUnchecked (workbook : @WorkBook WorkSheet) : option WorkSheet :=
  match SheetNames workbook with
  | name :: _ => Sheets workbook !! name
  | [] => Sheets workbook !! "undefined"
  end.

(** The [try] block of [reader.onload]: both calls that may throw come
    before the first effect. *)
Definition onload_try (data : option ArrayBuffer) : result (list Effect) :=
  workbook ← read data;
  let worksheet := firstSheetUnchecked workbook in
  jsonData ← sheet_to_json worksheet;
  Return [ConsoleLog jsonData; Alert successMessage; Navigate "/"].

(** [reader.onload], with its [catch] and [finally]. *)
Definition onload (data : option ArrayBuffer) (st : State) : State * list Effect :=
  match onload_try data with
  | Return effects => ({| uploading := false; error := error st |}, effects)
  | Throw _ => ({| uploading := false; error := Some parseErrorMessage |}, [])
  end.

(** [handleFileUpload], followed to the end of the reader's callback.
    [file] is [event.target.files?.[0]]. *)
Definition handleFileUpload (file : option File) (outcome : ReaderOutcome) (st : State)
  : State * list Effect :=
  match file with
  | None => (st, [])
  | Some _ =>
      let started := {| uploading := true; error := None |} in
      match outcome with
      | ReaderThrows e =>
          ({| uploading := false;
              error := Some (message_or "Failed to upload Excel file" e) |}, [])
      | ReaderError => ({| uploading := false; error := Some "Error reading file" |}, [])
      | ReaderLoad data => onload data started
      end
  end.

End Upload.

End AdminUpload.

(** The upload page's decoder for the samples: the bytes are the rows of
    the only sheet, or there is no sheet at all. *)
Definition sampleUploadRead (data : option (list RawJobData))
  : result (@WorkBook (list RawJobData)) :=
  match data with
  | Some rows => sampleRead rows
  | None => Throw (ErrorObj "Error" "No data")
  end.

Definition emptyUploadRead (data : option (list RawJobData))
  : result (@WorkBook (list RawJobData)) :=
  match data with
  | Some rows => emptyRead rows
  | None => Throw (ErrorObj "Error" "No data")
  end.

(** ** Reading a salary text *)

(** One optional sign in front of the digits. *)
Inductive Sign :=
| NoSign
| PlusSign
| MinusSign.

Definition signText (s : Sign) : string :=
  match s with
  | NoSign => ""
  | PlusSign => "+"
  | MinusSign => "-"
  end.

Definition signValue (s : Sign) : Z :=
  match s with
  | MinusSign => -1
  | _ => 1
  end.

(** 2^53: up to this magnitude every integer is a number of the language,
    prints in plain decimal and is read back exactly. *)
Definition maxExactInteger : Z := 9007199254740992.

Definition startsWithDigit (s : string) : bool :=
  match s with
  | String c _ => isDigit c
  | "" => false
  end.

Definition startsWithSignOrSpace (s : string) : bool :=
  match s with
  | String c _ => isStrWhiteSpace c || Ascii.eqb c "+" || Ascii.eqb c "-"
  | "" => false
  end.

(** What a salary text is read as, stated on the shape of the text and
    not through [parseInt10]: white space, one optional sign, the decimal
    digits of an integer [n] up to 2^53 and then anything that does not go
    on with a digit reads as [n] with that sign; white space and one
    optional sign followed by no digit at all reads as 0. *)
Inductive salaryReading : string -> Z -> Prop :=
| reading_integer (ws : string) (sign : Sign) (n : Z) (rest : string) :
    allWhiteSpace ws = true ->
    0 <= n <= maxExactInteger ->
    startsWithDigit rest = false ->
    salaryReading (ws +:+ signText sign +:+ Z_toString n +:+ rest) (signValue sign * n)
| reading_nothing (ws : string) (sign : Sign) (rest : string) :
    allWhiteSpace ws = true ->
    startsWithDigit rest = false ->
    (sign = NoSign -> startsWithSignOrSpace rest = false) ->
    salaryReading (ws +:+ signText sign +:+ rest) 0.

(** A clock reading in the year 10000, and the Job of [rowBadDate]
    validated then. *)
Definition lateNow : Z := 253402300800000.
Definition jobLate : Job := withPostedDate "+010000-01-01" sampleJob.

(** ** Proof automation *)

(** Linear arithmetic with division and remainder by constants. *)
Ltac div_lia := Z.to_euclidean_division_equations; lia.

(** * Properties *)

(** ** The exception monad *)

Lemma bind_Return_inv {A B} (m : result A) (f : A -> result B) (b : B) :
  m ≫= f = Return b -> exists a, m = Return a /\ f a = Return b.
Proof. destruct m as [a|e]; simpl; [eauto | discriminate]. Qed.

(** ** Cells *)

Lemma toString_opt_present v : present v = true -> exists s, toString_opt v = Some s /\ toString v = Return s.
Proof. destruct v as [| |[]| |]; simpl; try discriminate; eauto. Qed.

Lemma toString_opt_Some v s : toString_opt v = Some s -> toString v = Return s.
Proof. destruct v as [| |[]| |]; simpl; intros H; inversion H; auto. Qed.

Lemma truthy_present v : truthy v = true -> present v = true.
Proof. destruct v; simpl; auto. Qed.

Lemma missing_or_empty_falsy v : missing_or_empty v = true -> truthy v = false.
Proof.
  destruct v as [| |[]|z|s]; simpl; try reflexivity; try discriminate.
  - unfold missing_or_empty; simpl. destruct z; simpl; try discriminate.
    + unfold Z_toString; simpl. destruct (Pos.to_uint p); discriminate.
  - unfold missing_or_empty; simpl. intros ->. reflexivity.
Qed.

Lemma nonempty_string_truthy s : s <> "" -> truthy (VStr s) = true.
Proof. intros H. simpl. destruct (String.eqb_spec s ""); [contradiction | reflexivity]. Qed.

Lemma isBlank_truthy s : isBlank s = true -> truthy (VStr s) = true.
Proof. unfold isBlank. simpl. destruct (String.eqb s ""); simpl; [discriminate | reflexivity]. Qed.

(** ** The validator, case by case *)

Section ValidatorFacts.

Variable legacyDateParse : string -> bool.

#[local] Abbreviation validate := (validateAndParseJob legacyDateParse).
#[local] Abbreviation validate_try := (validateAndParseJob_try legacyDateParse).

(** The [catch] swallows every exception. *)
Lemma validate_never_throws now row : exists r, validate now row = Return r.
Proof.
  unfold validateAndParseJob. destruct (validate_try now row); simpl; eauto.
Qed.

Lemma validate_Some_try now row j :
  validate now row = Return (Some j) <-> validate_try now row = Return (Some j).
Proof.
  unfold validateAndParseJob. destruct (validate_try now row) as [r|e]; simpl; split;
    intros H; try discriminate; auto.
Qed.

Lemma validate_of_throw now row e :
  validate_try now row = Throw e -> validate now row = Return None.
Proof. unfold validateAndParseJob. intros ->. reflexivity. Qed.

(** A falsy required cell ends the [try] block at its first statement. *)
Lemma required_check_fails now row :
  truthy (prop row "ID") = false \/ truthy (prop row "Title") = false
  \/ truthy (prop row "Company") = false ->
  validate_try now row = Return None.
Proof.
  intros H. unfold validateAndParseJob_try.
  destruct H as [-> | [-> | ->]]; simpl;
    repeat match goal with |- context [negb ?b] => destruct b; simpl end; reflexivity.
Qed.

(** Everything a returned Job says about the row it came from. *)
Lemma validate_try_Some_inv now row j :
  validate_try now row = Return (Some j) ->
  truthy (prop row "ID") = true /\ truthy (prop row "Title") = true
  /\ truthy (prop row "Company") = true
  /\ toString (prop row "ID") = Return (id j)
  /\ toString (prop row "Title") = Return (title j)
  /\ toString (prop row "Company") = Return (company j)
  /\ toString (prop row "Location") = Return (location j)
  /\ type j = or_default (toString_opt (prop row "Type")) "FULL_TIME"
  /\ toString (prop row "Description") = Return (description j)
  /\ (exists t, toString (prop row "Requirements") = Return t
        /\ requirements j = filter_Boolean (split LF t))
  /\ (exists t, toString (prop row "SalaryMin") = Return t
        /\ min (salary j) = or_zero (parseInt10 t))
  /\ (exists t, toString (prop row "SalaryMax") = Return t
        /\ max (salary j) = or_zero (parseInt10 t))
  /\ currency (salary j) = or_default (toString_opt (prop row "SalaryCurrency")) "USD"
  /\ (if isValidDate legacyDateParse (toString_opt (prop row "PostedDate"))
      then toString (prop row "PostedDate") else Return (today now)) = Return (postedDate j)
  /\ applicationUrl j = or_default (toString_opt (prop row "ApplicationUrl")) "#"
  /\ companyLogo j = or_default (toString_opt (prop row "CompanyLogo")) defaultLogo.
Proof.
  unfold validateAndParseJob_try.
  destruct (truthy (prop row "ID")); simpl; [| discriminate].
  destruct (truthy (prop row "Title")); simpl; [| discriminate].
  destruct (truthy (prop row "Company")); simpl; [| discriminate].
  intros H.
  apply bind_Return_inv in H as (pd & Hpd & H).
  apply bind_Return_inv in H as (i & Hi & H).
  apply bind_Return_inv in H as (t & Ht & H).
  apply bind_Return_inv in H as (c & Hc & H).
  apply bind_Return_inv in H as (l & Hl & H).
  apply bind_Return_inv in H as (d & Hd & H).
  apply bind_Return_inv in H as (rq & Hrq & H).
  apply bind_Return_inv in H as (smin & Hmin & H).
  apply bind_Return_inv in H as (smax & Hmax & H).
  inversion H; subst j; clear H; simpl.
  repeat split; eauto.
Qed.

(** Conversely, the cells the [try] block calls [.toString()] on decide
    whether a Job comes out. *)
Lemma validate_try_accepts now row :
  truthy (prop row "ID") = true -> truthy (prop row "Title") = true ->
  truthy (prop row "Company") = true ->
  present (prop row "Location") = true -> present (prop row "Description") = true ->
  present (prop row "Requirements") = true ->
  present (prop row "SalaryMin") = true -> present (prop row "SalaryMax") = true ->
  exists j, validate_try now row = Return (Some j).
Proof.
  intros Hi Ht Hc Hl Hd Hr Hmin Hmax.
  unfold validateAndParseJob_try. rewrite Hi, Ht, Hc. simpl.
  apply truthy_present, toString_opt_present in Hi as (si & Hio & Hi'), Ht as (st & Hto & Ht'),
    Hc as (sc & Hco & Hc').
  apply toString_opt_present in Hl as (sl & _ & Hl'), Hd as (sd & _ & Hd'),
    Hr as (sr & _ & Hr'), Hmin as (smin & _ & Hmin'), Hmax as (smax & _ & Hmax').
  assert (Hpd : exists pd,
    (if isValidDate legacyDateParse (toString_opt (prop row "PostedDate"))
     then toString (prop row "PostedDate") else Return (today now)) = Return pd).
  { destruct (toString_opt (prop row "PostedDate")) as [s|] eqn:E; simpl.
    - destruct (Date_parses legacyDateParse s); eauto using toString_opt_Some.
    - eauto. }
  destruct Hpd as (pd & ->). simpl.
  rewrite Hi', Ht', Hc', Hl', Hd', Hr', Hmin', Hmax'. simpl. eauto.
Qed.

(** An accepted row hands its ID, Title and Company texts to the Job. *)
Lemma validate_accepts_with_fields now row :
  truthy (prop row "ID") = true -> truthy (prop row "Title") = true ->
  truthy (prop row "Company") = true ->
  present (prop row "Location") = true -> present (prop row "Description") = true ->
  present (prop row "Requirements") = true ->
  present (prop row "SalaryMin") = true -> present (prop row "SalaryMax") = true ->
  exists j,
    validate now row = Return (Some j)
    /\ toString (prop row "ID") = Return (id j)
    /\ toString (prop row "Title") = Return (title j)
    /\ toString (prop row "Company") = Return (company j).
Proof.
  intros Hi Ht Hc Hl Hd Hr Hmin Hmax.
  destruct (validate_try_accepts now row Hi Ht Hc Hl Hd Hr Hmin Hmax) as (j & Hj).
  exists j. split; [by apply validate_Some_try |].
  apply validate_try_Some_inv in Hj.
  destruct Hj as (_ & _ & _ & Hid & Htt & Hcc & _). auto.
Qed.

End ValidatorFacts.

(** ** Required fields *)

(** C1: a row whose ID, Title or Company cell is missing or has an empty
    text yields no Job: the [try] block returns [null] at the required-field
    check, before any Job is built, and so does the validator. *)
Theorem C1_missing_required_field_rejected
  (legacyDateParse : string -> bool) (now : Z) (row : RawJobData) :
  missing_or_empty (prop row "ID") = true
  \/ missing_or_empty (prop row "Title") = true
  \/ missing_or_empty (prop row "Company") = true ->
  validateAndParseJob_try legacyDateParse now row = Return None
  /\ validateAndParseJob legacyDateParse now row = Return None.
Proof.
  intros H.
  assert (Htry : validateAndParseJob_try legacyDateParse now row = Return None).
  { apply required_check_fails.
    destruct H as [H | [H | H]]; apply missing_or_empty_falsy in H; auto. }
  split; [exact Htry |].
  unfold validateAndParseJob. rewrite Htry. reflexivity.
Qed.

Lemma C1_witness :
  missing_or_empty (prop rowNoCompany "Company") = true
  /\ validateAndParseJob_try strictEngine sampleNow rowNoCompany = Return None
  /\ validateAndParseJob strictEngine sampleNow rowNoCompany = Return None.
Proof.
  split; [vm_compute; reflexivity |].
  apply (C1_missing_required_field_rejected strictEngine sampleNow rowNoCompany).
  right; right. vm_compute; reflexivity.
Defined.

(** C2, as stated, fails on two rows whose ID, Title and Company are all
    present with a non-empty text: one whose ID is the number 0, and one
    whose Location cell is empty. *)
Lemma C2_counterexample :
  (missing_or_empty (prop rowIdZero "ID") = false
   /\ missing_or_empty (prop rowIdZero "Title") = false
   /\ missing_or_empty (prop rowIdZero "Company") = false
   /\ validateAndParseJob strictEngine sampleNow rowIdZero = Return None)
  /\ (missing_or_empty (prop rowNoLocation "ID") = false
   /\ missing_or_empty (prop rowNoLocation "Title") = false
   /\ missing_or_empty (prop rowNoLocation "Company") = false
   /\ validateAndParseJob strictEngine sampleNow rowNoLocation = Return None).
Proof. vm_compute. repeat split. Qed.

(** C2 (amended): a row whose ID, Title and Company cells are truthy and
    whose Location, Description, Requirements, SalaryMin and SalaryMax
    cells are present yields one Job, whose id, title and company are the
    texts of the ID, Title and Company cells. *)
Theorem C2_accepted_row_keeps_required_fields
  (legacyDateParse : string -> bool) (now : Z) (row : RawJobData) :
  truthy (prop row "ID") = true ->
  truthy (prop row "Title") = true ->
  truthy (prop row "Company") = true ->
  present (prop row "Location") = true ->
  present (prop row "Description") = true ->
  present (prop row "Requirements") = true ->
  present (prop row "SalaryMin") = true ->
  present (prop row "SalaryMax") = true ->
  exists j,
    validateAndParseJob legacyDateParse now row = Return (Some j)
    /\ toString (prop row "ID") = Return (id j)
    /\ toString (prop row "Title") = Return (title j)
    /\ toString (prop row "Company") = Return (company j).
Proof.
  intros Hi Ht Hc Hl Hd Hr Hmin Hmax.
  by apply validate_accepts_with_fields.
Qed.

Lemma C2_witness :
  exists j,
    validateAndParseJob strictEngine sampleNow sampleRow = Return (Some j)
    /\ toString (prop sampleRow "ID") = Return (id j)
    /\ toString (prop sampleRow "Title") = Return (title j)
    /\ toString (prop sampleRow "Company") = Return (company j).
Proof.
  apply (C2_accepted_row_keeps_required_fields strictEngine sampleNow sampleRow);
    vm_compute; reflexivity.
Defined.

(** C10: the required-field check tests truthiness.  A row whose ID cell
    is the number 0, whose text "0" is not empty, is rejected at the check;
    a row whose Title or Company is a non-empty text of white space only
    passes it and, its other cells being in order, yields a Job that keeps
    that text. *)
Theorem C10_required_check_is_truthiness
  (legacyDateParse : string -> bool) (now : Z) (rowZero row : RawJobData) :
  prop rowZero "ID" = VNum 0 ->
  (exists t, prop row "Title" = VStr t /\ isBlank t = true
             /\ truthy (prop row "Company") = true)
  \/ (exists c, prop row "Company" = VStr c /\ isBlank c = true
                /\ truthy (prop row "Title") = true) ->
  truthy (prop row "ID") = true ->
  present (prop row "Location") = true ->
  present (prop row "Description") = true ->
  present (prop row "Requirements") = true ->
  present (prop row "SalaryMin") = true ->
  present (prop row "SalaryMax") = true ->
  (toString (prop rowZero "ID") = Return "0"
   /\ missing_or_empty (prop rowZero "ID") = false
   /\ validateAndParseJob_try legacyDateParse now rowZero = Return None
   /\ validateAndParseJob legacyDateParse now rowZero = Return None)
  /\ (exists j,
        validateAndParseJob legacyDateParse now row = Return (Some j)
        /\ toString (prop row "Title") = Return (title j)
        /\ toString (prop row "Company") = Return (company j)).
Proof.
  intros Hz Hblank Hi Hl Hd Hr Hmin Hmax. split.
  - assert (Htry : validateAndParseJob_try legacyDateParse now rowZero = Return None).
    { apply required_check_fails. left. rewrite Hz. reflexivity. }
    rewrite Hz. repeat split; auto.
    unfold validateAndParseJob. rewrite Htry. reflexivity.
  - assert (Htc : truthy (prop row "Title") = true /\ truthy (prop row "Company") = true).
    { destruct Hblank as [(t & Ht & Hb & Hc) | (c & Hc & Hb & Ht)]; split; auto.
      - rewrite Ht. by apply isBlank_truthy.
      - rewrite Hc. by apply isBlank_truthy. }
    destruct Htc as [Ht Hc].
    destruct (validate_accepts_with_fields legacyDateParse now row
                Hi Ht Hc Hl Hd Hr Hmin Hmax) as (j & Hj & _ & Htt & Hcc).
    eauto.
Qed.

Lemma C10_witness :
  (toString (prop rowIdZero "ID") = Return "0"
   /\ missing_or_empty (prop rowIdZero "ID") = false
   /\ validateAndParseJob_try strictEngine sampleNow rowIdZero = Return None
   /\ validateAndParseJob strictEngine sampleNow rowIdZero = Return None)
  /\ (exists j,
        validateAndParseJob strictEngine sampleNow rowBlankTitle = Return (Some j)
        /\ toString (prop rowBlankTitle "Title") = Return (title j)
        /\ toString (prop rowBlankTitle "Company") = Return (company j)).
Proof.
  apply (C10_required_check_is_truthiness strictEngine sampleNow rowIdZero rowBlankTitle);
    try (vm_compute; reflexivity).
  left. exists "   ". vm_compute. repeat split.
Defined.

(** ** The type field *)

(** C7, as stated, fails: a Type cell holding a text outside the four
    names goes into the Job as it is. *)
Lemma C7_counterexample :
  prop rowBadType "Type" = VStr "INVALID_TYPE"
  /\ isJobType "INVALID_TYPE" = false
  /\ validateAndParseJob strictEngine sampleNow rowBadType = Return (Some jobBadType)
  /\ type jobBadType = "INVALID_TYPE"
  /\ String.eqb (type jobBadType) "FULL_TIME" = false.
Proof. repeat split; vm_compute; reflexivity. Qed.

(** C7 (amended): in the Job of a row, the type is FULL_TIME when the Type
    cell is missing or its text is empty, and otherwise the text of the
    cell as it is, whether or not it is one of the four names. *)
Theorem C7_type_default_or_verbatim
  (legacyDateParse : string -> bool) (now : Z) (row : RawJobData) (j : Job) :
  validateAndParseJob legacyDateParse now row = Return (Some j) ->
  (missing_or_empty (prop row "Type") = true -> type j = "FULL_TIME")
  /\ (forall s, toString_opt (prop row "Type") = Some s -> s <> "" -> type j = s).
Proof.
  intros H. apply validate_Some_try, validate_try_Some_inv in H.
  destruct H as (_ & _ & _ & _ & _ & _ & _ & Hty & _). rewrite Hty.
  unfold missing_or_empty. split.
  - destruct (toString_opt (prop row "Type")) as [s|]; simpl; [| reflexivity].
    intros ->. reflexivity.
  - intros s -> Hs. simpl. destruct (String.eqb_spec s ""); [contradiction | reflexivity].
Qed.

Lemma C7_witness :
  (missing_or_empty (prop rowNoType "Type") = true -> type jobNoType = "FULL_TIME")
  /\ (forall s, toString_opt (prop rowNoType "Type") = Some s -> s <> "" ->
       type jobNoType = s).
Proof.
  apply (C7_type_default_or_verbatim strictEngine sampleNow rowNoType).
  vm_compute. reflexivity.
Defined.

(** ** Requirements *)

Lemma split_nonempty sep s : split sep s <> [].
Proof.
  destruct s as [|c s]; simpl; [discriminate |].
  destruct (Ascii.eqb c sep); [discriminate |].
  destruct (split sep s); discriminate.
Qed.

(** Joining the segments with the separator gives the text back: the
    segments are exactly the stretches between separators, in order. *)
Lemma join_split sep s : join (String sep "") (split sep s) = s.
Proof.
  induction s as [|c s IH]; simpl; [reflexivity |].
  destruct (Ascii.eqb_spec c sep) as [-> | Hne].
  - pose proof (split_nonempty sep s) as Hn.
    destruct (split sep s) as [|seg segs]; [contradiction |].
    simpl in *. rewrite IH. reflexivity.
  - pose proof (split_nonempty sep s) as Hn.
    destruct (split sep s) as [|seg segs]; [contradiction |].
    destruct segs as [|seg' segs]; simpl in *; rewrite <- IH; reflexivity.
Qed.

(** No segment contains the separator. *)
Lemma split_lacks sep s : Forall (fun seg => lacks sep seg = true) (split sep s).
Proof.
  induction s as [|c s IH]; simpl.
  - constructor; [reflexivity | constructor].
  - destruct (Ascii.eqb c sep) eqn:E.
    + constructor; [reflexivity | exact IH].
    + pose proof (split_nonempty sep s) as Hn.
      destruct (split sep s) as [|seg segs]; [contradiction |].
      inversion IH; subst. constructor; [| assumption].
      simpl. rewrite E. simpl. assumption.
Qed.

(** The segment before the first separator. *)
Lemma split_app_sep sep s rest :
  lacks sep s = true -> split sep (s +:+ String sep rest) = s :: split sep rest.
Proof.
  induction s as [|c s IH]; simpl.
  - intros _. rewrite Ascii.eqb_refl. reflexivity.
  - destruct (Ascii.eqb c sep); simpl; [discriminate |].
    intros H. rewrite (IH H). reflexivity.
Qed.

Lemma filter_Boolean_sublist l : sublist (filter_Boolean l) l.
Proof.
  induction l as [|s l IH]; simpl; [constructor |].
  destruct (String.eqb s ""); simpl; by constructor.
Qed.

Lemma filter_Boolean_nonempty l : Forall (fun s => s <> "") (filter_Boolean l).
Proof.
  induction l as [|s l IH]; simpl; [constructor |].
  destruct (String.eqb_spec s ""); simpl; [assumption | by constructor].
Qed.

Lemma filter_Boolean_keeps l s : s ∈ l -> s <> "" -> s ∈ filter_Boolean l.
Proof.
  intros Hin Hs. apply list_elem_of_In. unfold filter_Boolean. apply filter_In.
  split; [by apply list_elem_of_In |].
  destruct (String.eqb_spec s ""); [contradiction | reflexivity].
Qed.

(** C8: the requirements of a Job are the segments of the Requirements
    text between newlines (joined by newlines they give the text back, and
    none contains a newline), without the empty ones and in their order;
    the text "A\nB\n\nC" gives [A; B; C]. *)
Theorem C8_requirements_split
  (legacyDateParse : string -> bool) (now : Z) (row : RawJobData) (j : Job) :
  validateAndParseJob legacyDateParse now row = Return (Some j) ->
  (exists text,
     toString (prop row "Requirements") = Return text
     /\ requirements j = filter_Boolean (split LF text)
     /\ join (String LF "") (split LF text) = text
     /\ Forall (fun seg => lacks LF seg = true) (split LF text)
     /\ sublist (requirements j) (split LF text)
     /\ Forall (fun seg => seg <> "") (requirements j)
     /\ (forall seg, seg ∈ split LF text -> seg <> "" -> seg ∈ requirements j))
  /\ filter_Boolean (split LF sampleRequirements) = ["A"; "B"; "C"].
Proof.
  intros H. apply validate_Some_try, validate_try_Some_inv in H.
  destruct H as (_ & _ & _ & _ & _ & _ & _ & _ & _ & (text & Htext & Hreq) & _).
  split; [| reflexivity].
  exists text. rewrite Hreq.
  repeat split; auto using join_split, split_lacks, filter_Boolean_sublist,
    filter_Boolean_nonempty, filter_Boolean_keeps.
Qed.

Lemma C8_witness :
  (exists text,
     toString (prop sampleRow "Requirements") = Return text
     /\ requirements sampleJob = filter_Boolean (split LF text)
     /\ join (String LF "") (split LF text) = text
     /\ Forall (fun seg => lacks LF seg = true) (split LF text)
     /\ sublist (requirements sampleJob) (split LF text)
     /\ Forall (fun seg => seg <> "") (requirements sampleJob)
     /\ (forall seg, seg ∈ split LF text -> seg <> "" -> seg ∈ requirements sampleJob))
  /\ filter_Boolean (split LF sampleRequirements) = ["A"; "B"; "C"].
Proof.
  apply (C8_requirements_split strictEngine sampleNow sampleRow sampleJob).
  vm_compute. reflexivity.
Defined.

(** ** Salary *)


(** [parseInt] gives [NaN] exactly when, after white space and one
    optional sign, the text does not go on with a digit. *)
Lemma parseInt10_NaN s :
  parseInt10 s = NaN <->
  match snd (stripSign (trimStart s)) with
  | String c _ => isDigit c = false
  | "" => True
  end.
Proof.
  unfold parseInt10, isDigit.
  destruct (stripSign (trimStart s)) as [sign digits]. simpl.
  destruct digits as [|c r]; [tauto |].
  destruct (digitValue c); split; auto; discriminate.
Qed.

(** *** The reading of a salary text *)

Lemma append_cons c s r : String c s +:+ r = String c (s +:+ r).
Proof. reflexivity. Qed.
















Lemma salaryReading_within n : 0 <= n <= 50000 -> 0 <= n <= maxExactInteger.
Proof. unfold maxExactInteger. lia. Qed.





Lemma salaryReading_signed : salaryReading " -40 000" (-40).
Proof.
  exact (reading_integer " " MinusSign 40 " 000" eq_refl
           (salaryReading_within 40 ltac:(lia)) eq_refl).
Qed.




(** ** The batch *)

Section Batch.

Variable legacyDateParse : string -> bool.
Variable clock : nat -> Z.

(** The [map] runs through every row: no call of the validator throws, and
    what is left after the filter are the survivors. *)
Lemma map_validate_Return rows : forall i,
  exists rs, map_validate legacyDateParse clock i rows = Return rs
             /\ List.length rs = List.length rows
             /\ filter_nonnull rs = survivors legacyDateParse clock i rows.
Proof.
  induction rows as [|row rest IH]; intros i; simpl.
  - exists []. auto.
  - destruct (validate_never_throws legacyDateParse (clock i) row) as (r & Hr).
    destruct (IH (S i)) as (rs & Hrs & Hlen & Hsurv).
    exists (r :: rs). rewrite Hr, Hrs. simpl.
    repeat split; [by rewrite Hlen |].
    destruct r; simpl; by rewrite Hsurv.
Qed.

Lemma survivors_app pre post : forall i,
  survivors legacyDateParse clock i (pre ++ post)%list
  = (survivors legacyDateParse clock i pre
     ++ survivors legacyDateParse clock (i + List.length pre)%nat post)%list.
Proof.
  induction pre as [|row pre IH]; intros i; simpl.
  - by rewrite Nat.add_0_r.
  - rewrite IH, Nat.add_succ_r. simpl.
    by destruct (validateAndParseJob legacyDateParse (clock i) row) as [[j|]|e].
Qed.

(** The survivors are the Jobs of the accepted rows, taken at increasing
    row numbers: [idx] lists, in increasing order, the rows that yield a
    Job, and the survivors are their Jobs in that order. *)
Lemma survivors_in_row_order rows : forall k,
  exists idx : list nat,
    StronglySorted lt idx
    /\ Forall (fun i => (k <= i)%nat) idx
    /\ Forall2 (fun i j => exists row, rows !! (i - k)%nat = Some row
                  /\ validateAndParseJob legacyDateParse (clock i) row = Return (Some j))
         idx (survivors legacyDateParse clock k rows)
    /\ (forall n row j, rows !! n = Some row ->
          validateAndParseJob legacyDateParse (clock (k + n)%nat) row = Return (Some j) ->
          (k + n)%nat ∈ idx).
Proof.
  induction rows as [|row rest IH]; intros k.
  - exists []. repeat split; try constructor. intros n row j Hn. by destruct n.
  - destruct (IH (S k)) as (idx & Hsorted & Hge & Hjobs & Hall).
    assert (Hshift : Forall2 (fun i j => exists r, (row :: rest) !! (i - k)%nat = Some r
                  /\ validateAndParseJob legacyDateParse (clock i) r = Return (Some j))
              idx (survivors legacyDateParse clock (S k) rest)).
    { clear Hall Hsorted. induction Hjobs as [|i j idx' js (r & Hr & Hv) _ IHj];
        constructor.
      - inversion Hge; subst. exists r. split; [| assumption].
        replace (i - k)%nat with (S (i - S k)) by lia. exact Hr.
      - inversion Hge; subst. auto. }
    assert (Hge' : Forall (fun i => (k <= i)%nat) idx).
    { eapply Forall_impl; [exact Hge |]. simpl. intros; lia. }
    simpl. destruct (validateAndParseJob legacyDateParse (clock k) row) as [[j|]|e] eqn:Hv.
    + exists (k :: idx). repeat split.
      * constructor; [assumption |]. eapply Forall_impl; [exact Hge |]. simpl. intros; lia.
      * constructor; [lia | assumption].
      * constructor; [| assumption]. exists row. rewrite Nat.sub_diag. auto.
      * intros [|n] r j' Hn Hj'; simpl in Hn.
        -- rewrite Nat.add_0_r. left.
        -- right. replace (k + S n)%nat with (S k + n)%nat in * by lia. eauto.
    + exists idx. repeat split; auto.
      intros [|n] r j' Hn Hj'; simpl in Hn.
      * rewrite Nat.add_0_r in Hj'. inversion Hn; subst. congruence.
      * replace (k + S n)%nat with (S k + n)%nat in * by lia. eauto.
    + exists idx. repeat split; auto.
      intros [|n] r j' Hn Hj'; simpl in Hn.
      * rewrite Nat.add_0_r in Hj'. inversion Hn; subst. congruence.
      * replace (k + S n)%nat with (S k + n)%nat in * by lia. eauto.
Qed.

End Batch.

(** C3: the validator never throws, whatever the row.  When the [try]
    block throws on a row, the validator returns [null] for it, the [map]
    over the batch still goes through every row, and the surviving Jobs
    are those of the rows before it followed by those of the rows after it,
    each validated as it would be without the bad row in between. *)
Theorem C3_exception_is_a_rejection_of_one_row
  (legacyDateParse : string -> bool) (clock : nat -> Z)
  (pre post : list RawJobData) (bad : RawJobData) (e : exn) :
  validateAndParseJob_try legacyDateParse (clock (List.length pre)) bad = Throw e ->
  validateAndParseJob legacyDateParse (clock (List.length pre)) bad = Return None
  /\ (forall now row, exists r, validateAndParseJob legacyDateParse now row = Return r)
  /\ exists rs,
       map_validate legacyDateParse clock 0 (pre ++ bad :: post)%list = Return rs
       /\ List.length rs = List.length (pre ++ bad :: post)%list
       /\ filter_nonnull rs
          = (survivors legacyDateParse clock 0 pre
             ++ survivors legacyDateParse clock (S (List.length pre)) post)%list.
Proof.
  intros Hbad.
  assert (Hnull : validateAndParseJob legacyDateParse (clock (List.length pre)) bad
                  = Return None) by (eapply validate_of_throw; eauto).
  split; [exact Hnull |].
  split; [apply validate_never_throws |].
  destruct (map_validate_Return legacyDateParse clock (pre ++ bad :: post)%list 0)
    as (rs & Hrs & Hlen & Hsurv).
  exists rs. repeat split; auto.
  rewrite Hsurv, survivors_app. simpl. rewrite Hnull. reflexivity.
Qed.

Lemma C3_witness :
  validateAndParseJob strictEngine (sampleClock 1) rowNoLocation = Return None
  /\ (forall now row, exists r, validateAndParseJob strictEngine now row = Return r)
  /\ exists rs,
       map_validate strictEngine sampleClock 0 [sampleRow; rowNoLocation; rowBadType]
       = Return rs
       /\ List.length rs = 3%nat
       /\ filter_nonnull rs
          = (survivors strictEngine sampleClock 0 [sampleRow]
             ++ survivors strictEngine sampleClock 2 [rowBadType])%list.
Proof.
  apply (C3_exception_is_a_rejection_of_one_row strictEngine sampleClock
           [sampleRow] [rowBadType] rowNoLocation
           (ErrorObj "TypeError" "Cannot read properties of undefined (reading 'toString')")).
  vm_compute. reflexivity.
Defined.

(** ** The hook *)

Section Hook.

Context {ArrayBuffer WorkSheet : Type}.
Variable legacyDateParse : string -> bool.
Variable read : ArrayBuffer -> result (@WorkBook WorkSheet).
Variable sheet_to_json : option WorkSheet -> result (list RawJobData).
Variable clock : nat -> Z.

(** The four ways through [ingest]. *)
Lemma ingest_cases arrayBuffer :
  (exists e, read arrayBuffer = Throw e
     /\ ingest legacyDateParse read sheet_to_json clock arrayBuffer = Throw e)
  \/ (exists wb, read arrayBuffer = Return wb /\ SheetNames wb = []
     /\ ingest legacyDateParse read sheet_to_json clock arrayBuffer
        = Throw (ErrorObj "Error" "Excel file is empty"))
  \/ (exists wb e, read arrayBuffer = Return wb /\ SheetNames wb <> []
     /\ sheet_to_json (firstSheet wb) = Throw e
     /\ ingest legacyDateParse read sheet_to_json clock arrayBuffer = Throw e)
  \/ (exists wb rows, read arrayBuffer = Return wb /\ SheetNames wb <> []
     /\ sheet_to_json (firstSheet wb) = Return rows
     /\ ((survivors legacyDateParse clock 0 rows = []
          /\ ingest legacyDateParse read sheet_to_json clock arrayBuffer
             = Throw (ErrorObj "Error" "No valid jobs found in the file"))
         \/ (survivors legacyDateParse clock 0 rows <> []
             /\ ingest legacyDateParse read sheet_to_json clock arrayBuffer
                = Return (survivors legacyDateParse clock 0 rows)))).
Proof.
  unfold ingest.
  destruct (read arrayBuffer) as [wb|e] eqn:Hread; simpl; [| left; eauto].
  right.
  destruct (SheetNames wb) as [|name names] eqn:Hnames; simpl; [left; eauto |].
  right.
  destruct (sheet_to_json (firstSheet wb)) as [rows|e] eqn:Hrows; simpl.
  2:{ left. exists wb, e. rewrite Hnames. repeat split; auto. }
  right. exists wb, rows. rewrite Hnames.
  destruct (map_validate_Return legacyDateParse clock rows 0) as (rs & Hrs & _ & Hsurv).
  rewrite Hrs. simpl. rewrite Hsurv. repeat split; auto.
  destruct (survivors legacyDateParse clock 0 rows) as [|j js]; simpl; [left | right]; auto.
Qed.

End Hook.

(** C4, as stated, fails: a response that is not ok ends the hook with an
    error and no Jobs although its bytes decode to a sheet with a valid row
    (the decoder does not throw, there is a sheet, a row survives). *)
Lemma C4_counterexample :
  useJobs strictEngine sampleRead sampleSheetToJson sampleClock
    (Response false (Return [sampleRow]))
  = {| jobs := []; loading := false; error := Some "Failed to fetch jobs file" |}
  /\ sampleRead [sampleRow]
     = Return {| SheetNames := ["Jobs"]; Sheets := {[ "Jobs" := [sampleRow] ]} |}
  /\ sampleSheetToJson (Some [sampleRow]) = Return [sampleRow]
  /\ survivors strictEngine sampleClock 0 [sampleRow] = [sampleJob]
  /\ ~ decodeFails sampleRead sampleSheetToJson [sampleRow]
  /\ ~ zeroSheets sampleRead [sampleRow]
  /\ ~ noRowSurvives strictEngine sampleRead sampleSheetToJson sampleClock [sampleRow].
Proof.
  assert (Hsheet : firstSheet {| SheetNames := ["Jobs"];
                                 Sheets := {[ "Jobs" := [sampleRow] ]} |}
                   = Some [sampleRow]) by apply lookup_singleton_eq.
  assert (Hsurv : survivors strictEngine sampleClock 0 [sampleRow] = [sampleJob])
    by (vm_compute; reflexivity).
  split; [reflexivity |]. split; [reflexivity |]. split; [reflexivity |].
  split; [exact Hsurv |].
  unfold decodeFails, zeroSheets, noRowSurvives, sampleRead.
  split; [| split].
  - intros [(e & He) | (wb & e & Hwb & _ & He)]; [discriminate |].
    injection Hwb as <-. rewrite Hsheet in He. discriminate.
  - intros (wb & Hwb & Hnil). injection Hwb as <-. discriminate.
  - intros (wb & rows & Hwb & _ & Hrows & Hnone). injection Hwb as <-.
    rewrite Hsheet in Hrows. injection Hrows as <-.
    change (default [] (Some [sampleRow])) with [sampleRow] in Hnone.
    rewrite Hsurv in Hnone. discriminate.
Qed.

(** C4 (amended): the hook ends with an error, and with no Jobs, exactly
    when the bytes cannot be fetched, the decoder throws, the workbook has
    no sheet, or no row of the first sheet survives validation; otherwise
    it ends with no error and with the Jobs of the accepted rows in the
    order of the rows ([idx] are the accepted row numbers, increasing). *)
Theorem C4_batch_failure_exactly_when
  {ArrayBuffer WorkSheet : Type} (legacyDateParse : string -> bool)
  (read : ArrayBuffer -> result (@WorkBook WorkSheet))
  (sheet_to_json : option WorkSheet -> result (list RawJobData))
  (clock : nat -> Z) (net : @FetchOutcome ArrayBuffer) :
  let st := useJobs legacyDateParse read sheet_to_json clock net in
  loading st = false
  /\ (is_Some (error st) <->
      fetchFails net
      \/ exists arrayBuffer,
           net = Response true (Return arrayBuffer)
           /\ (decodeFails read sheet_to_json arrayBuffer
               \/ zeroSheets read arrayBuffer
               \/ noRowSurvives legacyDateParse read sheet_to_json clock arrayBuffer))
  /\ (is_Some (error st) -> jobs st = [])
  /\ (forall arrayBuffer, net = Response true (Return arrayBuffer) ->
      zeroSheets read arrayBuffer -> error st = Some "Excel file is empty")
  /\ (forall arrayBuffer, net = Response true (Return arrayBuffer) ->
      noRowSurvives legacyDateParse read sheet_to_json clock arrayBuffer ->
      error st = Some "No valid jobs found in the file")
  /\ (error st = None ->
      exists arrayBuffer wb rows idx,
        net = Response true (Return arrayBuffer)
        /\ read arrayBuffer = Return wb
        /\ sheet_to_json (firstSheet wb) = Return rows
        /\ jobs st = survivors legacyDateParse clock 0 rows
        /\ jobs st <> []
        /\ StronglySorted lt idx
        /\ Forall2 (fun i j => exists row, rows !! i = Some row
              /\ validateAndParseJob legacyDateParse (clock i) row = Return (Some j))
             idx (jobs st)
        /\ (forall i row j, rows !! i = Some row ->
              validateAndParseJob legacyDateParse (clock i) row = Return (Some j) ->
              i ∈ idx)).
Proof.
  unfold useJobs, fetchJobs, fetchJobs_try, decodeFails, zeroSheets, noRowSurvives.
  destruct net as [e | [|] [arrayBuffer | e]]; simpl.
  1,3,4,5: repeat split; eauto; try discriminate; try (intros ? [=]);
    try (intros _; left; eauto).
  destruct (ingest_cases legacyDateParse read sheet_to_json clock arrayBuffer)
    as [(e & Hread & ->)
       | [(wb & Hread & Hnames & ->)
         | [(wb & e & Hread & Hnames & Hrows & ->)
           | (wb & rows & Hread & Hnames & Hrows & [(Hnone & ->) | (Hsome & ->)])]]];
    simpl.
  - repeat split; eauto 10; try discriminate.
    + intros b [= <-] (wb & Hwb & _). congruence.
    + intros b [= <-] (wb & rows & Hwb & _). congruence.
  - repeat split; eauto 10; try discriminate.
    intros b [= <-] (wb' & rows & Hwb & Hne & _). congruence.
  - repeat split; eauto 12; try discriminate.
    + intros b [= <-] (wb' & Hwb & Hnil). congruence.
    + intros b [= <-] (wb' & rows & Hwb & _ & Hr & _). congruence.
  - repeat split; eauto 12; try discriminate.
    intros b [= <-] (wb' & Hwb & Hnil). congruence.
  - repeat split; try discriminate.
    + intros [x Hx]. discriminate.
    + intros [[Hf | (e & He)] | (b & [= <-] & Hcase)]; try discriminate.
      destruct Hcase as [[(e & He) | (wb' & e & Hwb & _ & Hr)]
             | [(wb' & Hwb & Hnil) | (wb' & rows' & Hwb & _ & Hr & Hs)]]; congruence.
    + intros [x Hx]. discriminate.
    + intros b [= <-] (wb' & Hwb & Hnil). congruence.
    + intros b [= <-] (wb' & rows' & Hwb & _ & Hr & Hs). congruence.
    + intros _.
      destruct (survivors_in_row_order legacyDateParse clock rows 0)
        as (idx & Hsorted & _ & Hjobs & Hall).
      exists arrayBuffer, wb, rows, idx. repeat split; auto.
      eapply Forall2_impl; [exact Hjobs |]. simpl.
      intros i j (row & Hrow & Hv). rewrite Nat.sub_0_r in Hrow. eauto.
Qed.

(** ** Dates *)

Lemma digitChar_mod10 n :
  isDigit (Date.digitChar (n mod 10)) = true
  /\ Ascii.eqb (Date.digitChar (n mod 10)) "T" = false.
Proof.
  pose proof (Z.mod_pos_bound n 10 ltac:(lia)) as Hb.
  assert (Hc : n mod 10 = 0 \/ n mod 10 = 1 \/ n mod 10 = 2 \/ n mod 10 = 3
               \/ n mod 10 = 4 \/ n mod 10 = 5 \/ n mod 10 = 6 \/ n mod 10 = 7
               \/ n mod 10 = 8 \/ n mod 10 = 9) by lia.
  repeat (destruct Hc as [Hc | Hc]; [rewrite Hc; split; reflexivity |]).
  rewrite Hc. split; reflexivity.
Qed.

Lemma isDigit_digitChar n : isDigit (Date.digitChar (n mod 10)) = true.
Proof. apply digitChar_mod10. Qed.

Lemma digitChar_not_T n : Ascii.eqb (Date.digitChar (n mod 10)) "T" = false.
Proof. apply digitChar_mod10. Qed.

(** The calendar fields are a month and a day of the month. *)
Lemma civil_of_days_fields days :
  1 <= Date.c_month (Date.civil_of_days days) <= 12
  /\ 1 <= Date.c_day (Date.civil_of_days days) <= 31.
Proof.
  unfold Date.civil_of_days. cbv zeta. simpl.
  set (doe := (days + 719468) mod 146097).
  assert (Hdoe : 0 <= doe < 146097) by (unfold doe; apply Z.mod_pos_bound; lia).
  clearbody doe.
  set (yoe := (doe - doe / 1460 + doe / 36524 - doe / 146096) / 365).
  set (doy := doe - (365 * yoe + yoe / 4 - yoe / 100)).
  assert (Hdoy : 0 <= doy <= 365) by (unfold doy, yoe; div_lia).
  clearbody doy. clear Hdoe.
  set (mp := (5 * doy + 2) / 153).
  assert (Hmp : 0 <= mp <= 11) by (unfold mp; div_lia).
  split.
  - destruct (mp <? 10) eqn:E; [apply Z.ltb_lt in E | apply Z.ltb_ge in E]; lia.
  - unfold mp. div_lia.
Qed.

(** The years 0 to 9999 are the days -719528 (0000-01-01) to 2932896
    (9999-12-31). *)
Lemma civil_year_iff days :
  -719528 <= days < 2932897 <->
  0 <= Date.c_year (Date.civil_of_days days) <= 9999.
Proof.
  unfold Date.civil_of_days. cbv zeta. simpl Date.c_year.
  set (z := days + 719468).
  assert (Hz : days = z - 719468) by (unfold z; lia).
  clearbody z. subst days.
  set (era := z / 146097).
  set (doe := z mod 146097).
  assert (Hdoe : 0 <= doe < 146097) by (unfold doe; apply Z.mod_pos_bound; lia).
  assert (Hzd : z = 146097 * era + doe) by (unfold era, doe; apply Z.div_mod; lia).
  clearbody era doe. subst z.
  set (yoe := (doe - doe / 1460 + doe / 36524 - doe / 146096) / 365).
  set (doy := doe - (365 * yoe + yoe / 4 - yoe / 100)).
  set (mp := (5 * doy + 2) / 153).
  destruct (mp <? 10) eqn:Emp; [apply Z.ltb_lt in Emp | apply Z.ltb_ge in Emp].
  - replace (mp + 3 <=? 2) with false
      by (symmetry; apply Z.leb_gt; unfold mp, doy, yoe in *; div_lia).
    unfold mp, doy, yoe in *; div_lia.
  - replace (mp - 9 <=? 2) with true
      by (symmetry; apply Z.leb_le; unfold mp, doy, yoe in *; div_lia).
    unfold mp, doy, yoe in *; div_lia.
Qed.

Lemma fourDigitYear_iff now :
  fourDigitYear now <-> 0 <= Date.YearFromTime now <= 9999.
Proof.
  unfold fourDigitYear, Date.YearFromTime. rewrite <- civil_year_iff.
  unfold Date.Day, Date.msPerDay. div_lia.
Qed.

(** With a four-digit year, the ISO text is the date, a [T], and the time. *)
Lemma toISOString_shape now :
  fourDigitYear now ->
  Date.toISOString now = utcDate now +:+ String "T" (utcTime now).
Proof.
  intros Hy. apply fourDigitYear_iff in Hy as [Hlo Hhi].
  unfold Date.toISOString, Date.yearString, utcDate, utcTime.
  replace (0 <=? Date.YearFromTime now) with true by (symmetry; by apply Z.leb_le).
  replace (Date.YearFromTime now <=? 9999) with true by (symmetry; by apply Z.leb_le).
  cbv [andb Date.padDigits String.append]. reflexivity.
Qed.

Lemma utcDate_isYMD t : isYMD (utcDate t) = true.
Proof.
  unfold utcDate, isYMD. cbv [Date.padDigits String.append].
  rewrite !isDigit_digitChar. reflexivity.
Qed.

Lemma utcDate_lacks_T t : lacks "T" (utcDate t) = true.
Proof.
  unfold utcDate. cbv [Date.padDigits String.append lacks].
  rewrite !digitChar_not_T. reflexivity.
Qed.

(** [today] is the UTC date of the clock reading, in the form YYYY-MM-DD,
    and it is the first ten characters of the ISO text. *)
Lemma today_spec now :
  fourDigitYear now ->
  today now = utcDate now
  /\ today now = substring 0 10 (Date.toISOString now)
  /\ isYMD (today now) = true.
Proof.
  intros Hy. unfold today. rewrite (toISOString_shape now Hy).
  rewrite (split_app_sep "T" (utcDate now) (utcTime now) (utcDate_lacks_T now)).
  split; [reflexivity |]. split; [| apply utcDate_isYMD].
  unfold utcDate. cbv [Date.padDigits String.append substring]. reflexivity.
Qed.

(** The postedDate of a Job, from the row and the clock. *)
Lemma postedDate_spec legacyDateParse now row j :
  validateAndParseJob legacyDateParse now row = Return (Some j) ->
  postedDate j = match toString_opt (prop row "PostedDate") with
                 | Some s => if Date_parses legacyDateParse s then s else today now
                 | None => today now
                 end.
Proof.
  intros H. apply validate_Some_try, validate_try_Some_inv in H.
  destruct H as (_ & _ & _ & _ & _ & _ & _ & _ & _ & _ & _ & _ & _ & Hpd & _).
  destruct (toString_opt (prop row "PostedDate")) as [s|] eqn:E; simpl in Hpd.
  - destruct (Date_parses legacyDateParse s).
    + apply toString_opt_Some in E. congruence.
    + congruence.
  - congruence.
Qed.

(** A text in the ECMAScript format parses on every engine. *)
Lemma isoDateTime_parses legacyDateParse s :
  Date.isoDateTime s = true -> Date_parses legacyDateParse s = true.
Proof. unfold Date_parses. intros ->. reflexivity. Qed.

(** The first character of a text of the form YYYY-MM-DD is a digit. *)
Lemma isYMD_head c s : isDigit c = false -> isYMD (String c s) = false.
Proof.
  intros Hc. destruct (isYMD (String c s)) eqn:E; [| reflexivity].
  unfold isYMD in E.
  repeat match type of E with
         | context [match ?x with _ => _ end] => destruct x; try discriminate
         end.
  rewrite Hc in E. discriminate.
Qed.

(** The first segment of a text that starts with a character that is
    neither the separator nor a digit has not the form YYYY-MM-DD. *)
Lemma split_head_not_YMD sep c s rest :
  Ascii.eqb c sep = false -> isDigit c = false ->
  isYMD (match split sep (String c s +:+ rest) with
         | seg :: _ => seg
         | [] => ""
         end) = false.
Proof.
  intros Hsep Hc. rewrite append_cons. simpl split. rewrite Hsep.
  destruct (split sep (s +:+ rest)) as [|seg segs]; by apply isYMD_head.
Qed.

(** Outside the years 0 to 9999 the ISO text starts with a sign, and so
    does its part before the [T]. *)
Lemma today_signed now :
  ~ fourDigitYear now -> isYMD (today now) = false.
Proof.
  intros Hy. rewrite fourDigitYear_iff in Hy.
  unfold today, Date.toISOString, Date.yearString.
  destruct (Z.leb_spec 0 (Date.YearFromTime now)) as [Hlo|Hlo];
    [destruct (Z.leb_spec (Date.YearFromTime now) 9999) as [Hhi|Hhi]; [lia |] |];
    simpl andb;
    (destruct (Z.ltb_spec (Date.YearFromTime now) 0) as [Hneg|Hneg]; [try lia | try lia]).
  - change ("+" +:+ Date.padDigits 6 (Date.YearFromTime now))
      with (String "+" (Date.padDigits 6 (Date.YearFromTime now))).
    by apply split_head_not_YMD.
  - change ("-" +:+ Date.padDigits 6 (- Date.YearFromTime now))
      with (String "-" (Date.padDigits 6 (- Date.YearFromTime now))).
    by apply split_head_not_YMD.
Qed.

(** The fallback date has the form YYYY-MM-DD exactly for a clock in the
    years 0 to 9999. *)
Lemma today_isYMD_iff now : isYMD (today now) = true <-> fourDigitYear now.
Proof.
  split.
  - intros H. destruct (decide (-62167219200000 <= now < 253402300800000)) as [Hy|Hy];
      [exact Hy |].
    apply today_signed in Hy. congruence.
  - intros Hy. by apply today_spec.
Qed.

(** C6, as stated, fails at a clock reading outside the years 0 to 9999:
    in the year 10000 the text "not-a-date" is replaced by "+010000-01-01",
    which has not the form YYYY-MM-DD and is not the first ten characters
    of the ISO text either. *)
Lemma C6_counterexample :
  prop rowBadDate "PostedDate" = VStr "not-a-date"
  /\ isValidDate strictEngine (Some "not-a-date") = false
  /\ validateAndParseJob strictEngine lateNow rowBadDate = Return (Some jobLate)
  /\ postedDate jobLate = "+010000-01-01"
  /\ isYMD (postedDate jobLate) = false
  /\ Date.toISOString lateNow = "+010000-01-01T00:00:00.000Z"
  /\ substring 0 10 (Date.toISOString lateNow) = "+010000-01"
  /\ postedDate jobLate <> substring 0 10 (Date.toISOString lateNow).
Proof.
  do 7 (split; [vm_compute; reflexivity |]).
  intros H. vm_compute in H. discriminate.
Qed.

(** C6 (amended): in the Job of a row, a PostedDate text that the Date
    constructor parses is kept as it is, "2024-03-01" for one, on every
    engine; a missing cell or a text that does not parse, "not-a-date" for
    one on an engine whose fallback parser rejects it, is replaced by the
    part of the ISO text of the clock reading before its [T].  For a clock
    in the UTC years 0 to 9999 that part is the UTC date in the form
    YYYY-MM-DD, the first ten characters of the ISO text; for no other
    clock has it that form. *)
Theorem C6_postedDate_kept_or_today
  (legacyDateParse : string -> bool) (now : Z) (row : RawJobData) (j : Job) :
  validateAndParseJob legacyDateParse now row = Return (Some j) ->
  (forall s, toString_opt (prop row "PostedDate") = Some s ->
             isValidDate legacyDateParse (Some s) = true -> postedDate j = s)
  /\ (isValidDate legacyDateParse (toString_opt (prop row "PostedDate")) = false ->
      postedDate j = today now)
  /\ (prop row "PostedDate" = VStr "2024-03-01" -> postedDate j = "2024-03-01")
  /\ (prop row "PostedDate" = VStr "not-a-date" ->
      legacyDateParse "not-a-date" = false -> postedDate j = today now)
  /\ (toString_opt (prop row "PostedDate") = None -> postedDate j = today now)
  /\ (fourDigitYear now ->
      today now = utcDate now
      /\ today now = substring 0 10 (Date.toISOString now))
  /\ (isYMD (today now) = true <-> fourDigitYear now).
Proof.
  intros H. apply postedDate_spec in H.
  split.
  { intros s Hs Hv. rewrite Hs in H. simpl in Hv. rewrite Hv in H. exact H. }
  split.
  { intros Hv. destruct (toString_opt (prop row "PostedDate")) as [s|]; [| exact H].
    simpl in Hv. rewrite Hv in H. exact H. }
  split.
  { intros Hp. rewrite Hp in H. simpl in H. exact H. }
  split.
  { intros Hp Hl. rewrite Hp in H. simpl in H.
    unfold Date_parses in H. rewrite Hl in H. exact H. }
  split.
  { intros Hp. rewrite Hp in H. exact H. }
  split.
  { intros Hy. destruct (today_spec now Hy) as (Hu & Hsub & _). auto. }
  apply today_isYMD_iff.
Qed.

Lemma C6_witness :
  (forall s, toString_opt (prop rowBadDate "PostedDate") = Some s ->
             isValidDate strictEngine (Some s) = true -> postedDate jobBadDate = s)
  /\ (isValidDate strictEngine (toString_opt (prop rowBadDate "PostedDate")) = false ->
      postedDate jobBadDate = today sampleNow)
  /\ (prop rowBadDate "PostedDate" = VStr "2024-03-01" ->
      postedDate jobBadDate = "2024-03-01")
  /\ (prop rowBadDate "PostedDate" = VStr "not-a-date" ->
      strictEngine "not-a-date" = false -> postedDate jobBadDate = today sampleNow)
  /\ (toString_opt (prop rowBadDate "PostedDate") = None ->
      postedDate jobBadDate = today sampleNow)
  /\ (fourDigitYear sampleNow ->
      today sampleNow = utcDate sampleNow
      /\ today sampleNow = substring 0 10 (Date.toISOString sampleNow))
  /\ (isYMD (today sampleNow) = true <-> fourDigitYear sampleNow).
Proof.
  apply (C6_postedDate_kept_or_today strictEngine sampleNow rowBadDate jobBadDate).
  vm_compute. reflexivity.
Defined.

(** C9, as stated, fails: a PostedDate text with a time of day is a valid
    date for the Date constructor, on every engine, and goes into the Job
    as it is. *)
Lemma C9_counterexample :
  Date.isoDateTime "2024-03-01T10:00:00Z" = true
  /\ validateAndParseJob strictEngine sampleNow rowInstant = Return (Some jobInstant)
  /\ postedDate jobInstant = "2024-03-01T10:00:00Z"
  /\ isYMD (postedDate jobInstant) = false.
Proof. repeat split; vm_compute; reflexivity. Qed.

(** C9 (amended): the postedDate of a Job is either the text of the
    PostedDate cell as it is, when the Date constructor parses it, or the
    part of the ISO text of the clock reading before its [T], which has
    the form YYYY-MM-DD exactly for a clock in the UTC years 0 to 9999; so,
    for a clock in those years, postedDate has the form YYYY-MM-DD
    whenever the parsed cell text has. *)
Theorem C9_postedDate_form
  (legacyDateParse : string -> bool) (now : Z) (row : RawJobData) (j : Job) :
  validateAndParseJob legacyDateParse now row = Return (Some j) ->
  ((exists s, toString_opt (prop row "PostedDate") = Some s
              /\ Date_parses legacyDateParse s = true /\ postedDate j = s)
   \/ (isValidDate legacyDateParse (toString_opt (prop row "PostedDate")) = false
       /\ postedDate j = today now))
  /\ (isYMD (today now) = true <-> fourDigitYear now)
  /\ (fourDigitYear now ->
      (forall s, toString_opt (prop row "PostedDate") = Some s ->
                 Date_parses legacyDateParse s = true -> isYMD s = true) ->
      isYMD (postedDate j) = true).
Proof.
  intros H. apply postedDate_spec in H.
  split; [| split; [apply today_isYMD_iff |]].
  - destruct (toString_opt (prop row "PostedDate")) as [s|] eqn:E; simpl.
    + destruct (Date_parses legacyDateParse s) eqn:Hp; [left; eauto | right; auto].
    + right; auto.
  - intros Hy Hs. apply today_isYMD_iff in Hy.
    destruct (toString_opt (prop row "PostedDate")) as [s|] eqn:E.
    + destruct (Date_parses legacyDateParse s) eqn:Hp; rewrite H; auto.
    + rewrite H. exact Hy.
Qed.

Lemma C9_witness :
  ((exists s, toString_opt (prop rowInstant "PostedDate") = Some s
              /\ Date_parses strictEngine s = true /\ postedDate jobInstant = s)
   \/ (isValidDate strictEngine (toString_opt (prop rowInstant "PostedDate")) = false
       /\ postedDate jobInstant = today sampleNow))
  /\ (isYMD (today sampleNow) = true <-> fourDigitYear sampleNow)
  /\ (fourDigitYear sampleNow ->
      (forall s, toString_opt (prop rowInstant "PostedDate") = Some s ->
                 Date_parses strictEngine s = true -> isYMD s = true) ->
      isYMD (postedDate jobInstant) = true).
Proof.
  apply (C9_postedDate_form strictEngine sampleNow rowInstant jobInstant).
  vm_compute. reflexivity.
Defined.

(** ** Runs on the sample data *)

Example sampleRow_validates :
  validateAndParseJob strictEngine sampleNow sampleRow = Return (Some sampleJob).
Proof. vm_compute. reflexivity. Qed.

Example toISOString_samples :
  Date.toISOString sampleNow = "2023-11-14T22:13:20.000Z"
  /\ Date.toISOString 0 = "1970-01-01T00:00:00.000Z"
  /\ Date.toISOString (-1) = "1969-12-31T23:59:59.999Z"
  /\ Date.toISOString 951782400000 = "2000-02-29T00:00:00.000Z"
  /\ Date.toISOString 253402300799999 = "9999-12-31T23:59:59.999Z"
  /\ Date.toISOString 253402300800000 = "+010000-01-01T00:00:00.000Z"
  /\ Date.toISOString (-62167219200001) = "-000001-12-31T23:59:59.999Z"
  /\ Date.toISOString 8640000000000000 = "+275760-09-13T00:00:00.000Z"
  /\ Date.toISOString (-8640000000000000) = "-271821-04-20T00:00:00.000Z".
Proof. vm_compute. repeat split. Qed.

Example isoDateTime_samples :
  map Date.isoDateTime
    ["2024-03-01"; "2024"; "2024-03"; "2024-02-29"; "2024-03-01T10:00";
     "2024-03-01T10:00:00.123+05:30"; "2024-03-01T24:00:00"]
  = [true; true; true; true; true; true; true]
  /\ map Date.isoDateTime
       ["not-a-date"; ""; "2023-02-29"; "2024-13-01"; "2024-3-1"; "2024-03-01 ";
        "2024-03-01T24:00:01"; "March 1, 2024"; "45352"]
     = [false; false; false; false; false; false; false; false; false].
Proof. vm_compute. split; reflexivity. Qed.

Example parseInt10_samples :
  parseInt10 "  -12abc" = Int (-12) /\ parseInt10 "+7" = Int 7
  /\ parseInt10 "3.9" = Int 3 /\ parseInt10 "1e5" = Int 1
  /\ parseInt10 "$50,000" = NaN /\ parseInt10 "- 5" = NaN /\ parseInt10 "true" = NaN.
Proof. vm_compute. repeat split. Qed.

(** Three rows, the second without a Location: two Jobs, no error. *)
Example useJobs_sample_batch :
  useJobs strictEngine sampleRead sampleSheetToJson sampleClock
    (Response true (Return [sampleRow; rowNoLocation; rowBadType]))
  = {| jobs := [sampleJob; jobBadType]; loading := false; error := None |}.
Proof. vm_compute. reflexivity. Qed.

(** Every row rejected; no sheet; unreadable bytes. *)
Example useJobs_sample_failures :
  useJobs strictEngine sampleRead sampleSheetToJson sampleClock
    (Response true (Return [rowNoCompany; rowIdZero; rowNoSalaryMin]))
  = {| jobs := []; loading := false; error := Some "No valid jobs found in the file" |}
  /\ useJobs strictEngine emptyRead sampleSheetToJson sampleClock
       (Response true (Return [sampleRow]))
     = {| jobs := []; loading := false; error := Some "Excel file is empty" |}
  /\ useJobs strictEngine failingRead sampleSheetToJson sampleClock
       (Response true (Return [sampleRow]))
     = {| jobs := []; loading := false; error := Some "Unsupported file" |}.
Proof. vm_compute. repeat split. Qed.

(** * Further properties *)

(** ** The fallback date is a date *)

Lemma isLeapYear_era y era : Date.isLeapYear (y + era * 400) = Date.isLeapYear y.
Proof.
  unfold Date.isLeapYear.
  replace ((y + era * 400) mod 4) with (y mod 4) by div_lia.
  replace ((y + era * 400) mod 100) with (y mod 100) by div_lia.
  replace ((y + era * 400) mod 400) with (y mod 400) by div_lia.
  reflexivity.
Qed.

(** The day of the month exists in that month of that year. *)
Lemma civil_day_in_month days :
  Date.c_day (Date.civil_of_days days)
  <= Date.daysInMonth (Date.c_year (Date.civil_of_days days))
                      (Date.c_month (Date.civil_of_days days)).
Proof.
  unfold Date.civil_of_days. cbv zeta. simpl.
  set (era := (days + 719468) / 146097).
  set (doe := (days + 719468) mod 146097).
  assert (Hdoe : 0 <= doe < 146097) by (unfold doe; apply Z.mod_pos_bound; lia).
  clearbody doe era.
  set (yoe := (doe - doe / 1460 + doe / 36524 - doe / 146096) / 365).
  assert (Hyoe : 0 <= yoe <= 399) by (unfold yoe; div_lia).
  set (doy := doe - (365 * yoe + yoe / 4 - yoe / 100)).
  assert (Hdoy : 0 <= doy <= 365) by (unfold doy, yoe; div_lia).
  assert (Hleap : doy = 365 ->
            (yoe + 1) mod 4 = 0 /\ ((yoe + 1) mod 100 <> 0 \/ yoe = 399))
    by (unfold doy, yoe; div_lia).
  clearbody doy.
  set (mp := (5 * doy + 2) / 153).
  assert (Hmp : 0 <= mp <= 11) by (unfold mp; div_lia).
  assert (Hcases : mp = 0 \/ mp = 1 \/ mp = 2 \/ mp = 3 \/ mp = 4 \/ mp = 5 \/ mp = 6
                   \/ mp = 7 \/ mp = 8 \/ mp = 9 \/ mp = 10 \/ mp = 11) by lia.
  unfold Date.daysInMonth.
  destruct Hcases as [E|[E|[E|[E|[E|[E|[E|[E|[E|[E|[E|E]]]]]]]]]]]; rewrite E; simpl;
    try (unfold mp in E; div_lia).
  replace (yoe + era * 400 + 1) with ((yoe + 1) + era * 400) by lia.
  rewrite isLeapYear_era. unfold Date.isLeapYear.
  destruct (Z.eq_dec doy 365) as [H365 | H365].
  - destruct (Hleap H365) as [H4 Hc]. rewrite H4. simpl.
    destruct Hc as [Hc | Hc].
    + apply Z.eqb_neq in Hc. rewrite Hc. simpl. unfold mp in E; div_lia.
    + subst yoe. rewrite Hc. simpl. unfold mp in E; div_lia.
  - destruct (_ && _); unfold mp in E; div_lia.
Qed.

Lemma digitValue_digitChar n :
  digitValue (Date.digitChar (n mod 10)) = Some (n mod 10).
Proof.
  pose proof (Z.mod_pos_bound n 10 ltac:(lia)) as Hb.
  assert (Hc : n mod 10 = 0 \/ n mod 10 = 1 \/ n mod 10 = 2 \/ n mod 10 = 3
               \/ n mod 10 = 4 \/ n mod 10 = 5 \/ n mod 10 = 6 \/ n mod 10 = 7
               \/ n mod 10 = 8 \/ n mod 10 = 9) by lia.
  repeat (destruct Hc as [Hc | Hc]; [rewrite Hc; reflexivity |]).
  rewrite Hc. reflexivity.
Qed.

(** Reading back two and four padded digits. *)
Lemma digits2_padDigits n rest :
  0 <= n < 100 -> Date.digits2 (Date.padDigits 2 n +:+ rest) = Some (n, rest).
Proof.
  intros Hn. cbv [Date.padDigits String.append Date.digits2].
  rewrite !digitValue_digitChar. do 2 f_equal. div_lia.
Qed.

Lemma digits4_padDigits n rest :
  0 <= n < 10000 -> Date.digits4 (Date.padDigits 4 n +:+ rest) = Some (n, rest).
Proof.
  intros Hn. cbv [Date.padDigits String.append Date.digits4 Date.digits2].
  rewrite !digitValue_digitChar. do 2 f_equal. div_lia.
Qed.

(** The UTC date of a clock reading in a four-digit year is in the
    ECMAScript date format. *)
Lemma utcDate_isoDateTime now :
  fourDigitYear now -> Date.isoDateTime (utcDate now) = true.
Proof.
  intros Hy. apply fourDigitYear_iff in Hy.
  pose proof (civil_of_days_fields (Date.Day now)) as [Hm Hd].
  pose proof (civil_day_in_month (Date.Day now)) as Hdm.
  replace (utcDate now) with
    (Date.padDigits 4 (Date.YearFromTime now) +:+
       String "-" (Date.padDigits 2 (Date.MonthFromTime now) +:+
         String "-" (Date.padDigits 2 (Date.DateFromTime now) +:+ "")))
    by reflexivity.
  unfold Date.isoDateTime, Date.YearFromTime, Date.MonthFromTime, Date.DateFromTime in *.
  rewrite digits4_padDigits by lia.
  rewrite digits2_padDigits by lia.
  rewrite digits2_padDigits
    by (pose proof (Z.mod_pos_bound 0 1); unfold Date.daysInMonth in Hdm;
        repeat match goal with H : context [if ?b then _ else _] |- _ => destruct b end; lia).
  cbv [Date.isoRest].
  repeat match goal with |- context [?a <=? ?b] =>
    replace (a <=? b) with true by (symmetry; apply Z.leb_le; lia) end.
  reflexivity.
Qed.

(** ** What decides acceptance *)

Lemma toString_present v s : toString v = Return s -> present v = true.
Proof. destruct v as [| |[]| |]; simpl; intros H; inversion H; auto. Qed.

Lemma Z_toString_nonempty z : Z_toString z <> "".
Proof.
  unfold Z_toString. destruct z as [|p|p]; simpl; try discriminate.
  destruct (Pos.to_uint p); discriminate.
Qed.

(** The text of a truthy cell is not empty. *)
Lemma truthy_text_nonempty v s : truthy v = true -> toString v = Return s -> s <> "".
Proof.
  destruct v as [| |[]|z|t]; simpl; try discriminate; intros Ht [= <-];
    try discriminate.
  - apply Z_toString_nonempty.
  - intros ->. discriminate.
Qed.

Lemma usable_spec row :
  usable row = true <->
  truthy (prop row "ID") = true /\ truthy (prop row "Title") = true
  /\ truthy (prop row "Company") = true
  /\ present (prop row "Location") = true /\ present (prop row "Description") = true
  /\ present (prop row "Requirements") = true
  /\ present (prop row "SalaryMin") = true /\ present (prop row "SalaryMax") = true.
Proof. unfold usable. rewrite !andb_true_iff. tauto. Qed.

(** A Job comes out exactly of the usable rows, whatever the clock. *)
Lemma validate_accepts_iff legacyDateParse now row :
  (exists j, validateAndParseJob legacyDateParse now row = Return (Some j))
  <-> usable row = true.
Proof.
  rewrite usable_spec. split.
  - intros (j & Hj). apply validate_Some_try, validate_try_Some_inv in Hj.
    destruct Hj as (Hi & Ht & Hc & _ & _ & _ & Hl & _ & Hd & (tr & Hr & _)
                    & (tmin & Hmin & _) & (tmax & Hmax & _) & _).
    repeat split; eauto using toString_present.
  - intros (Hi & Ht & Hc & Hl & Hd & Hr & Hmin & Hmax).
    destruct (validate_try_accepts legacyDateParse now row Hi Ht Hc Hl Hd Hr Hmin Hmax)
      as (j & Hj).
    exists j. by apply validate_Some_try.
Qed.

Lemma validate_rejects_iff legacyDateParse now row :
  validateAndParseJob legacyDateParse now row = Return None <-> usable row = false.
Proof.
  pose proof (validate_accepts_iff legacyDateParse now row) as Hiff.
  destruct (validate_never_throws legacyDateParse now row) as ([j|] & Hr).
  - assert (usable row = true) by (apply Hiff; eauto). split; congruence.
  - split; [| auto]. intros _. destruct (usable row) eqn:E; [| reflexivity].
    destruct (proj2 Hiff eq_refl) as (j & Hj). congruence.
Qed.

(** X1: the validator yields a Job exactly when the row is usable (ID,
    Title and Company truthy; Location, Description, Requirements,
    SalaryMin and SalaryMax present) and [null] exactly when it is not; the
    Type, SalaryCurrency, PostedDate, ApplicationUrl and CompanyLogo cells
    and the clock never decide acceptance. *)
Theorem X1_job_exactly_of_usable_rows
  (legacyDateParse : string -> bool) (now : Z) (row : RawJobData) :
  ((exists j, validateAndParseJob legacyDateParse now row = Return (Some j))
   <-> usable row = true)
  /\ (validateAndParseJob legacyDateParse now row = Return None
      <-> usable row = false).
Proof. split; [apply validate_accepts_iff | apply validate_rejects_iff]. Qed.

(** The id, title and company of a Job are not empty. *)
Lemma job_required_nonempty legacyDateParse now row j :
  validateAndParseJob legacyDateParse now row = Return (Some j) ->
  id j <> "" /\ title j <> "" /\ company j <> "".
Proof.
  intros H. apply validate_Some_try, validate_try_Some_inv in H.
  destruct H as (Hi & Ht & Hc & Hid & Htt & Hcc & _).
  split; [exact (truthy_text_nonempty _ _ Hi Hid) |].
  split; [exact (truthy_text_nonempty _ _ Ht Htt) |].
  exact (truthy_text_nonempty _ _ Hc Hcc).
Qed.

(** The postedDate of a Job is a text the Date constructor parses. *)
Lemma job_postedDate_parses legacyDateParse now row j :
  validateAndParseJob legacyDateParse now row = Return (Some j) ->
  fourDigitYear now ->
  Date_parses legacyDateParse (postedDate j) = true.
Proof.
  intros H Hy. apply postedDate_spec in H. rewrite H.
  destruct (today_spec now Hy) as (Hu & _).
  assert (Ht : Date_parses legacyDateParse (today now) = true).
  { rewrite Hu. apply isoDateTime_parses. by apply utcDate_isoDateTime. }
  destruct (toString_opt (prop row "PostedDate")) as [s|]; [| exact Ht].
  destruct (Date_parses legacyDateParse s) eqn:E; [exact E | exact Ht].
Qed.

Lemma or_default_nonempty s d : d <> "" -> or_default s d <> "".
Proof.
  intros Hd. destruct s as [s|]; simpl; [| exact Hd].
  destruct (String.eqb_spec s ""); [exact Hd | assumption].
Qed.

Lemma filter_Boolean_Forall (P : string -> Prop) l :
  Forall P l -> Forall (fun s => s <> "" /\ P s) (filter_Boolean l).
Proof.
  induction 1 as [|s l Hs Hl IH]; simpl; [constructor |].
  destruct (String.eqb_spec s ""); simpl; [exact IH |]. by constructor.
Qed.

Lemma job_wellFormed legacyDateParse now row j :
  validateAndParseJob legacyDateParse now row = Return (Some j) ->
  fourDigitYear now ->
  wellFormedJob legacyDateParse j.
Proof.
  intros H Hy. unfold wellFormedJob.
  pose proof (job_required_nonempty _ _ _ _ H) as (Hi & Ht & Hc).
  pose proof (job_postedDate_parses _ _ _ _ H Hy) as Hpd.
  apply validate_Some_try, validate_try_Some_inv in H.
  destruct H as (_ & _ & _ & _ & _ & _ & _ & Hty & _ & (t & _ & Hreq) & _ & _
                 & Hcur & _ & Hurl & Hlogo).
  rewrite Hty, Hcur, Hurl, Hlogo, Hreq.
  repeat split; auto; try (apply or_default_nonempty; discriminate).
  apply filter_Boolean_Forall, split_lacks.
Qed.

Lemma survivors_Forall legacyDateParse clock (P : Job -> Prop) rows : forall i,
  (forall k row j, validateAndParseJob legacyDateParse (clock k) row = Return (Some j) ->
                   P j) ->
  Forall P (survivors legacyDateParse clock i rows).
Proof.
  induction rows as [|row rest IH]; intros i HP; simpl; [constructor |].
  destruct (validateAndParseJob legacyDateParse (clock i) row) as [[j|]|e] eqn:E; auto.
  constructor; eauto.
Qed.

(** The jobs of the hook are nothing or the survivors of some rows. *)
Lemma useJobs_jobs_cases
  {ArrayBuffer WorkSheet : Type} (legacyDateParse : string -> bool)
  (read : ArrayBuffer -> result (@WorkBook WorkSheet))
  (sheet_to_json : option WorkSheet -> result (list RawJobData))
  (clock : nat -> Z) (net : @FetchOutcome ArrayBuffer) :
  jobs (useJobs legacyDateParse read sheet_to_json clock net) = []
  \/ exists rows, jobs (useJobs legacyDateParse read sheet_to_json clock net)
                  = survivors legacyDateParse clock 0 rows.
Proof.
  unfold useJobs, fetchJobs, fetchJobs_try.
  destruct net as [e | [|] [arrayBuffer | e]]; simpl; auto.
  destruct (ingest_cases legacyDateParse read sheet_to_json clock arrayBuffer)
    as [(e & _ & ->) | [(wb & _ & _ & ->) | [(wb & e & _ & _ & _ & ->)
       | (wb & rows & _ & _ & _ & [(_ & ->) | (_ & ->)])]]]; simpl; eauto.
Qed.

(** X2: every Job of the validator has a non-empty id, title and company,
    and a non-empty type, currency, applicationUrl and companyLogo (the
    cell's text or the default, never the empty text). *)
Theorem X2_job_texts_never_empty
  (legacyDateParse : string -> bool) (now : Z) (row : RawJobData) (j : Job) :
  validateAndParseJob legacyDateParse now row = Return (Some j) ->
  id j <> "" /\ title j <> "" /\ company j <> ""
  /\ type j <> "" /\ currency (salary j) <> ""
  /\ applicationUrl j <> "" /\ companyLogo j <> "".
Proof.
  intros H.
  pose proof (job_required_nonempty _ _ _ _ H) as (Hi & Ht & Hc).
  apply validate_Some_try, validate_try_Some_inv in H.
  destruct H as (_ & _ & _ & _ & _ & _ & _ & Hty & _ & _ & _ & _
                 & Hcur & _ & Hurl & Hlogo).
  rewrite Hty, Hcur, Hurl, Hlogo.
  repeat split; auto; apply or_default_nonempty; discriminate.
Qed.

Lemma X2_witness :
  id sampleJob <> "" /\ title sampleJob <> "" /\ company sampleJob <> ""
  /\ type sampleJob <> "" /\ currency (salary sampleJob) <> ""
  /\ applicationUrl sampleJob <> "" /\ companyLogo sampleJob <> "".
Proof.
  apply (X2_job_texts_never_empty strictEngine sampleNow sampleRow sampleJob).
  vm_compute. reflexivity.
Defined.

(** X3: the postedDate of every Job is a text the Date constructor parses:
    the cell's own text when it parses, and otherwise the fallback, which
    is itself in the ECMAScript date format (the clock being in a year of
    four digits).  So [isValidDate] holds of every postedDate produced. *)
Theorem X3_postedDate_always_parses
  (legacyDateParse : string -> bool) (now : Z) (row : RawJobData) (j : Job) :
  validateAndParseJob legacyDateParse now row = Return (Some j) ->
  fourDigitYear now ->
  isValidDate legacyDateParse (Some (postedDate j)) = true
  /\ Date.isoDateTime (today now) = true.
Proof.
  intros H Hy. split.
  - simpl. eapply job_postedDate_parses; eauto.
  - destruct (today_spec now Hy) as (-> & _). by apply utcDate_isoDateTime.
Qed.

Lemma X3_witness :
  isValidDate strictEngine (Some (postedDate jobBadDate)) = true
  /\ Date.isoDateTime (today sampleNow) = true.
Proof.
  apply (X3_postedDate_always_parses strictEngine sampleNow rowBadDate jobBadDate).
  - vm_compute. reflexivity.
  - unfold fourDigitYear, sampleNow. lia.
Defined.

(** X4: whatever the network, the decoder and the rows do, every Job in
    the state of the hook is well formed: the texts that must be there are
    not empty, every requirement is one non-empty line, and the postedDate
    parses (the clock staying in years of four digits). *)
Theorem X4_hook_jobs_well_formed
  {ArrayBuffer WorkSheet : Type} (legacyDateParse : string -> bool)
  (read : ArrayBuffer -> result (@WorkBook WorkSheet))
  (sheet_to_json : option WorkSheet -> result (list RawJobData))
  (clock : nat -> Z) (net : @FetchOutcome ArrayBuffer) :
  (forall i, fourDigitYear (clock i)) ->
  Forall (wellFormedJob legacyDateParse)
    (jobs (useJobs legacyDateParse read sheet_to_json clock net)).
Proof.
  intros Hclock.
  destruct (useJobs_jobs_cases legacyDateParse read sheet_to_json clock net)
    as [-> | (rows & ->)]; [constructor |].
  apply survivors_Forall. intros k row j Hj.
  eapply job_wellFormed; eauto.
Qed.

Lemma X4_witness :
  Forall (wellFormedJob strictEngine)
    (jobs (useJobs strictEngine sampleRead sampleSheetToJson steadyClock
             (Response true (Return [sampleRow; rowNoLocation; rowBadDate])))).
Proof.
  apply (X4_hook_jobs_well_formed strictEngine sampleRead sampleSheetToJson steadyClock).
  intros i. unfold fourDigitYear, steadyClock, sampleNow. lia.
Defined.

(** ** The other fields *)

(** X5: in the Job of a row, location and description are the texts of
    their cells as they are, the empty text included (there is no default
    for them); applicationUrl is "#" and companyLogo the placeholder
    picture when the cell is missing or its text is empty, and the text of
    the cell otherwise. *)
Theorem X5_passthrough_and_defaults
  (legacyDateParse : string -> bool) (now : Z) (row : RawJobData) (j : Job) :
  validateAndParseJob legacyDateParse now row = Return (Some j) ->
  toString (prop row "Location") = Return (location j)
  /\ toString (prop row "Description") = Return (description j)
  /\ (missing_or_empty (prop row "ApplicationUrl") = true -> applicationUrl j = "#")
  /\ (forall s, toString_opt (prop row "ApplicationUrl") = Some s -> s <> "" ->
      applicationUrl j = s)
  /\ (missing_or_empty (prop row "CompanyLogo") = true -> companyLogo j = defaultLogo)
  /\ (forall s, toString_opt (prop row "CompanyLogo") = Some s -> s <> "" ->
      companyLogo j = s).
Proof.
  intros H. apply validate_Some_try, validate_try_Some_inv in H.
  destruct H as (_ & _ & _ & _ & _ & _ & Hl & _ & Hd & _ & _ & _ & _ & _ & Hurl & Hlogo).
  rewrite Hurl, Hlogo. unfold missing_or_empty.
  split; [exact Hl |]. split; [exact Hd |].
  repeat split.
  - destruct (toString_opt (prop row "ApplicationUrl")) as [s|]; simpl; [| reflexivity].
    intros ->. reflexivity.
  - intros s -> Hs. simpl. destruct (String.eqb_spec s ""); [contradiction | reflexivity].
  - destruct (toString_opt (prop row "CompanyLogo")) as [s|]; simpl; [| reflexivity].
    intros ->. reflexivity.
  - intros s -> Hs. simpl. destruct (String.eqb_spec s ""); [contradiction | reflexivity].
Qed.

Lemma X5_witness :
  toString (prop rowEmptyTexts "Location") = Return (location jobEmptyTexts)
  /\ toString (prop rowEmptyTexts "Description") = Return (description jobEmptyTexts)
  /\ (missing_or_empty (prop rowEmptyTexts "ApplicationUrl") = true ->
      applicationUrl jobEmptyTexts = "#")
  /\ (forall s, toString_opt (prop rowEmptyTexts "ApplicationUrl") = Some s -> s <> "" ->
      applicationUrl jobEmptyTexts = s)
  /\ (missing_or_empty (prop rowEmptyTexts "CompanyLogo") = true ->
      companyLogo jobEmptyTexts = defaultLogo)
  /\ (forall s, toString_opt (prop rowEmptyTexts "CompanyLogo") = Some s -> s <> "" ->
      companyLogo jobEmptyTexts = s).
Proof.
  apply (X5_passthrough_and_defaults strictEngine sampleNow rowEmptyTexts jobEmptyTexts).
  vm_compute. reflexivity.
Defined.

(** ** The clock *)

(** X6: the clock reaches nothing but the postedDate.  At two clock
    readings a row is rejected at both or accepted at both, the two Jobs
    differ at most in their postedDate, and when the PostedDate cell
    parses the two results are the same. *)
Theorem X6_clock_only_in_postedDate
  (legacyDateParse : string -> bool) (now1 now2 : Z) (row : RawJobData) :
  (validateAndParseJob legacyDateParse now1 row = Return None
   <-> validateAndParseJob legacyDateParse now2 row = Return None)
  /\ (forall j1 j2,
        validateAndParseJob legacyDateParse now1 row = Return (Some j1) ->
        validateAndParseJob legacyDateParse now2 row = Return (Some j2) ->
        sameButPostedDate j1 j2)
  /\ (isValidDate legacyDateParse (toString_opt (prop row "PostedDate")) = true ->
      validateAndParseJob legacyDateParse now1 row
      = validateAndParseJob legacyDateParse now2 row).
Proof.
  split; [| split].
  - rewrite !validate_rejects_iff. tauto.
  - intros j1 j2 H1 H2.
    apply validate_Some_try, validate_try_Some_inv in H1, H2.
    destruct H1 as (_ & _ & _ & Hi1 & Ht1 & Hc1 & Hl1 & Hty1 & Hd1 & (r1 & Hr1 & Hq1)
                    & (a1 & Ha1 & Hmin1) & (b1 & Hb1 & Hmax1) & Hcur1 & _ & Hu1 & Hg1).
    destruct H2 as (_ & _ & _ & Hi2 & Ht2 & Hc2 & Hl2 & Hty2 & Hd2 & (r2 & Hr2 & Hq2)
                    & (a2 & Ha2 & Hmin2) & (b2 & Hb2 & Hmax2) & Hcur2 & _ & Hu2 & Hg2).
    unfold sameButPostedDate.
    assert (r1 = r2) by congruence. assert (a1 = a2) by congruence.
    assert (b1 = b2) by congruence. subst r2 a2 b2.
    repeat split; try congruence.
    destruct (salary j1), (salary j2); simpl in *; congruence.
  - intros Hv. unfold validateAndParseJob, validateAndParseJob_try. rewrite Hv.
    reflexivity.
Qed.

(** ** Columns *)

(** The validator depends on a row through its thirteen columns only. *)
Lemma validate_same_columns legacyDateParse now row1 row2 :
  (forall k, k ∈ columns -> row1 !! k = row2 !! k) ->
  validateAndParseJob legacyDateParse now row1
  = validateAndParseJob legacyDateParse now row2.
Proof.
  intros H.
  assert (Hp : forall k, k ∈ columns -> prop row1 k = prop row2 k).
  { intros k Hk. unfold prop. by rewrite (H k Hk). }
  unfold validateAndParseJob, validateAndParseJob_try.
  rewrite !(Hp "ID"), !(Hp "Title"), !(Hp "Company"), !(Hp "Location"),
    !(Hp "Type"), !(Hp "Description"), !(Hp "Requirements"), !(Hp "SalaryMin"),
    !(Hp "SalaryMax"), !(Hp "SalaryCurrency"), !(Hp "PostedDate"),
    !(Hp "ApplicationUrl"), !(Hp "CompanyLogo")
    by (unfold columns; set_solver).
  reflexivity.
Qed.

(** X7: two rows with the same cells in the thirteen columns the validator
    reads give the same result; so a cell in any other column, added,
    changed or removed, changes nothing. *)
Theorem X7_other_columns_ignored
  (legacyDateParse : string -> bool) (now : Z) (row1 row2 : RawJobData) :
  (forall k, k ∈ columns -> row1 !! k = row2 !! k) ->
  validateAndParseJob legacyDateParse now row1
  = validateAndParseJob legacyDateParse now row2
  /\ (forall k v, k ∉ columns ->
        validateAndParseJob legacyDateParse now (<[k := v]> row1)
        = validateAndParseJob legacyDateParse now row2
        /\ validateAndParseJob legacyDateParse now (delete k row1)
           = validateAndParseJob legacyDateParse now row2).
Proof.
  intros H. split; [by apply validate_same_columns |].
  intros k v Hk. split; apply validate_same_columns; intros k' Hk'.
  - rewrite lookup_insert_ne by congruence. by apply H.
  - rewrite lookup_delete_ne by congruence. by apply H.
Qed.

Lemma X7_witness :
  validateAndParseJob strictEngine sampleNow rowExtraColumn
  = validateAndParseJob strictEngine sampleNow sampleRow
  /\ (forall k v, k ∉ columns ->
        validateAndParseJob strictEngine sampleNow (<[k := v]> rowExtraColumn)
        = validateAndParseJob strictEngine sampleNow sampleRow
        /\ validateAndParseJob strictEngine sampleNow (delete k rowExtraColumn)
           = validateAndParseJob strictEngine sampleNow sampleRow).
Proof.
  apply (X7_other_columns_ignored strictEngine sampleNow rowExtraColumn sampleRow).
  intros k Hk. unfold rowExtraColumn. apply lookup_insert_ne.
  intros <-. apply list_elem_of_In in Hk. simpl in Hk. intuition discriminate.
Defined.

Lemma survivors_none legacyDateParse clock rows : forall i,
  Forall (fun row => usable row = false) rows ->
  survivors legacyDateParse clock i rows = [].
Proof.
  induction rows as [|row rest IH]; intros i H; simpl; [reflexivity |].
  inversion H as [|? ? Hrow Hrest]; subst.
  apply (validate_rejects_iff legacyDateParse (clock i)) in Hrow. rewrite Hrow. auto.
Qed.

Lemma headers_documented_unusable row :
  headersAmong documentedColumns row -> usable row = false.
Proof.
  intros H. unfold usable.
  assert (Hid : prop row "ID" = VUndefined).
  { unfold prop. destruct (row !! "ID") as [v|] eqn:E; [| reflexivity].
    assert (Hin : "ID" ∈ documentedColumns) by (apply H; eauto).
    apply list_elem_of_In in Hin. simpl in Hin. intuition discriminate. }
  rewrite Hid. reflexivity.
Qed.

(** X8: a row decoded from a sheet whose headers are the names the upload
    page documents (id, title, company, ... in lower case) is rejected,
    the validator reading ID, Title, Company; a first sheet of such rows
    ends the hook with "No valid jobs found in the file". *)
Theorem X8_documented_headers_yield_no_job
  {ArrayBuffer WorkSheet : Type} (legacyDateParse : string -> bool)
  (read : ArrayBuffer -> result (@WorkBook WorkSheet))
  (sheet_to_json : option WorkSheet -> result (list RawJobData))
  (clock : nat -> Z) (arrayBuffer : ArrayBuffer)
  (wb : @WorkBook WorkSheet) (rows : list RawJobData) :
  read arrayBuffer = Return wb ->
  SheetNames wb <> [] ->
  sheet_to_json (firstSheet wb) = Return rows ->
  Forall (headersAmong documentedColumns) rows ->
  Forall (fun row => forall now,
            validateAndParseJob legacyDateParse now row = Return None) rows
  /\ useJobs legacyDateParse read sheet_to_json clock (Response true (Return arrayBuffer))
     = {| jobs := []; loading := false;
          error := Some "No valid jobs found in the file" |}.
Proof.
  intros Hread Hnames Hrows Hdoc.
  assert (Hun : Forall (fun row => usable row = false) rows).
  { eapply Forall_impl; [exact Hdoc |]. apply headers_documented_unusable. }
  split.
  - eapply Forall_impl; [exact Hun |]. simpl. intros row Hrow now.
    by apply validate_rejects_iff.
  - unfold useJobs, fetchJobs, fetchJobs_try. simpl.
    destruct (ingest_cases legacyDateParse read sheet_to_json clock arrayBuffer)
      as [(e & He & _) | [(wb' & Hwb & Hnil & _) | [(wb' & e & Hwb & _ & He & _)
         | (wb' & rows' & Hwb & _ & Hr & [(_ & ->) | (Hsome & _)])]]];
      try congruence.
    + reflexivity.
    + exfalso. apply Hsome.
      assert (wb' = wb) by congruence. subst wb'.
      assert (rows' = rows) by congruence. subst rows'.
      by apply survivors_none.
Qed.

Lemma X8_witness :
  Forall (fun row => forall now,
            validateAndParseJob strictEngine now row = Return None)
    [rowLowercase; rowLowercase]
  /\ useJobs strictEngine sampleRead sampleSheetToJson sampleClock
       (Response true (Return [rowLowercase; rowLowercase]))
     = {| jobs := []; loading := false;
          error := Some "No valid jobs found in the file" |}.
Proof.
  assert (Hrow : headersAmong documentedColumns rowLowercase).
  { intros k [v Hk]. unfold rowLowercase in Hk.
    unfold documentedColumns.
    repeat (rewrite lookup_insert in Hk; case_decide;
            [subst k; repeat constructor |]).
    apply lookup_singleton_Some in Hk as [<- _]. repeat constructor. }
  apply (X8_documented_headers_yield_no_job strictEngine sampleRead sampleSheetToJson
           sampleClock [rowLowercase; rowLowercase]
           {| SheetNames := ["Jobs"];
              Sheets := {[ "Jobs" := [rowLowercase; rowLowercase] ]} |}
           [rowLowercase; rowLowercase]).
  - reflexivity.
  - discriminate.
  - unfold firstSheet. simpl. rewrite lookup_singleton_eq. reflexivity.
  - constructor; [exact Hrow |]. constructor; [exact Hrow | constructor].
Defined.

(** ** More on requirements *)

Lemma filter_Boolean_split_nil t :
  filter_Boolean (split LF t) = [] <-> allNewlines t = true.
Proof.
  induction t as [|c t IH]; simpl; [tauto |].
  destruct (Ascii.eqb c LF) eqn:E; simpl.
  - exact IH.
  - pose proof (split_nonempty LF t) as Hn.
    destruct (split LF t) as [|seg segs]; [contradiction |]. simpl.
    split; discriminate.
Qed.

Lemma split_lacking sep s : lacks sep s = true -> split sep s = [s].
Proof.
  induction s as [|c s IH]; simpl; [reflexivity |].
  destruct (Ascii.eqb c sep); simpl; [discriminate |].
  intros H. rewrite (IH H). reflexivity.
Qed.

(** Splitting what [join] put together, line by line. *)
Lemma filter_Boolean_split_join l :
  Forall (fun s => s <> "" /\ lacks LF s = true) l ->
  filter_Boolean (split LF (join (String LF "") l)) = l.
Proof.
  induction 1 as [|s l [Hs Hl] Hrest IH]; [reflexivity |].
  destruct l as [|s' l'].
  - simpl. rewrite (split_lacking LF s Hl). simpl.
    destruct (String.eqb_spec s ""); [contradiction | reflexivity].
  - change (join (String LF "") (s :: s' :: l'))
      with (s +:+ String LF (join (String LF "") (s' :: l'))).
    rewrite (split_app_sep LF s _ Hl).
    change (filter_Boolean (s :: ?x)) with
      (if negb (String.eqb s "") then s :: filter_Boolean x else filter_Boolean x).
    destruct (String.eqb_spec s ""); [contradiction |]. simpl negb. cbv iota.
    by rewrite IH.
Qed.

(** X9: a Job has no requirement exactly when the Requirements text holds
    nothing but newline characters (an empty text included): the row is
    still accepted, with the empty list. *)
Theorem X9_no_requirement_iff_only_newlines
  (legacyDateParse : string -> bool) (now : Z) (row : RawJobData) (j : Job) :
  validateAndParseJob legacyDateParse now row = Return (Some j) ->
  exists text,
    toString (prop row "Requirements") = Return text
    /\ (requirements j = [] <-> allNewlines text = true).
Proof.
  intros H. apply validate_Some_try, validate_try_Some_inv in H.
  destruct H as (_ & _ & _ & _ & _ & _ & _ & _ & _ & (text & Htext & Hreq) & _).
  exists text. split; [exact Htext |]. rewrite Hreq. apply filter_Boolean_split_nil.
Qed.

Lemma X9_witness :
  exists text,
    toString (prop rowEmptyTexts "Requirements") = Return text
    /\ (requirements jobEmptyTexts = [] <-> allNewlines text = true).
Proof.
  apply (X9_no_requirement_iff_only_newlines strictEngine sampleNow rowEmptyTexts).
  vm_compute. reflexivity.
Defined.

(** X10: when the Requirements text is a list of non-empty lines joined by
    newlines, the Job's requirements are that list: line by line, in
    order, none lost and none added. *)
Theorem X10_requirements_of_joined_lines
  (legacyDateParse : string -> bool) (now : Z) (row : RawJobData) (j : Job)
  (lines : list string) :
  validateAndParseJob legacyDateParse now row = Return (Some j) ->
  toString (prop row "Requirements") = Return (join (String LF "") lines) ->
  Forall (fun s => s <> "" /\ lacks LF s = true) lines ->
  requirements j = lines.
Proof.
  intros H Htext Hlines. apply validate_Some_try, validate_try_Some_inv in H.
  destruct H as (_ & _ & _ & _ & _ & _ & _ & _ & _ & (text & Htext' & Hreq) & _).
  assert (text = join (String LF "") lines) by congruence. subst text.
  rewrite Hreq. by apply filter_Boolean_split_join.
Qed.

Lemma X10_witness : requirements sampleJob = ["A"; "B"; "C"].
Proof.
  apply (X10_requirements_of_joined_lines strictEngine sampleNow rowThreeLines sampleJob).
  - vm_compute. reflexivity.
  - reflexivity.
  - repeat constructor; discriminate.
Defined.

(** ** The error shown *)

(** X11: when the fetch is rejected, the body cannot be read, or the
    decoder throws (in [read] or in [sheet_to_json]), the hook shows the
    message of the thrown Error, and "Failed to fetch jobs" when what was
    thrown is not an Error; a response that is not ok gives "Failed to
    fetch jobs file" without its body being read.  In each case there are
    no Jobs and loading is over. *)
Theorem X11_error_message_by_cause
  {ArrayBuffer WorkSheet : Type} (legacyDateParse : string -> bool)
  (read : ArrayBuffer -> result (@WorkBook WorkSheet))
  (sheet_to_json : option WorkSheet -> result (list RawJobData))
  (clock : nat -> Z) (e : exn) (body : result ArrayBuffer) (arrayBuffer : ArrayBuffer) :
  let failed msg := {| jobs := []; loading := false; error := Some msg |} in
  let hook := useJobs legacyDateParse read sheet_to_json clock in
  hook (FetchRejected e) = failed (message_or "Failed to fetch jobs" e)
  /\ hook (Response false body) = failed "Failed to fetch jobs file"
  /\ hook (Response true (Throw e)) = failed (message_or "Failed to fetch jobs" e)
  /\ (read arrayBuffer = Throw e ->
      hook (Response true (Return arrayBuffer))
      = failed (message_or "Failed to fetch jobs" e))
  /\ (forall wb, read arrayBuffer = Return wb -> SheetNames wb <> [] ->
      sheet_to_json (firstSheet wb) = Throw e ->
      hook (Response true (Return arrayBuffer))
      = failed (message_or "Failed to fetch jobs" e))
  /\ (forall name msg, message_or "Failed to fetch jobs" (ErrorObj name msg) = msg)
  /\ message_or "Failed to fetch jobs" NonError = "Failed to fetch jobs".
Proof.
  intros failed hook. unfold hook, failed, useJobs, fetchJobs, fetchJobs_try, ingest.
  repeat split.
  - intros Hread. simpl. rewrite Hread. reflexivity.
  - intros wb Hread Hnames Hrows. simpl. rewrite Hread. simpl.
    destruct (SheetNames wb) eqn:E; [contradiction |]. simpl.
    unfold firstSheet in Hrows. rewrite E in Hrows.
    unfold firstSheet. rewrite E, Hrows. reflexivity.
Qed.

(** ** The upload page *)

Section UploadFacts.

Context {File ArrayBuffer WorkSheet : Type}.
Variable read : option ArrayBuffer -> result (@WorkBook WorkSheet).
Variable sheet_to_json : option WorkSheet -> result (list RawJobData).

(** The two ways through [onload]. *)
Lemma onload_cases data st :
  (exists wb rows,
     read data = Return wb
     /\ sheet_to_json (AdminUpload.firstSheetUnchecked wb) = Return rows
     /\ AdminUpload.onload read sheet_to_json data st
        = ({| AdminUpload.uploading := false;
              AdminUpload.error := AdminUpload.error st |},
           [AdminUpload.ConsoleLog rows; AdminUpload.Alert AdminUpload.successMessage;
            AdminUpload.Navigate "/"]))
  \/ (((exists e, read data = Throw e)
       \/ exists wb e, read data = Return wb
                       /\ sheet_to_json (AdminUpload.firstSheetUnchecked wb) = Throw e)
      /\ AdminUpload.onload read sheet_to_json data st
         = ({| AdminUpload.uploading := false;
               AdminUpload.error := Some AdminUpload.parseErrorMessage |}, [])).
Proof.
  unfold AdminUpload.onload, AdminUpload.onload_try.
  destruct (read data) as [wb|e] eqn:Hread; simpl; [| right; eauto].
  destruct (sheet_to_json (AdminUpload.firstSheetUnchecked wb)) as [rows|e] eqn:Hrows;
    simpl; [left | right]; eauto 10.
Qed.

End UploadFacts.

(** X12: with no file chosen the upload handler changes nothing and does
    nothing.  With a file, uploading is false at the end whatever
    happens, and the page reports success (the rows logged, the alert,
    the navigation to "/", and the error cleared) exactly when the reader
    loads the bytes and neither [read] nor [sheet_to_json] throws;
    otherwise it sets an error and neither alerts nor navigates.  The rows
    themselves are never looked at. *)
Theorem X12_upload_outcome
  {File ArrayBuffer WorkSheet : Type}
  (read : option ArrayBuffer -> result (@WorkBook WorkSheet))
  (sheet_to_json : option WorkSheet -> result (list RawJobData))
  (file : File) (outcome : @AdminUpload.ReaderOutcome ArrayBuffer)
  (st : AdminUpload.State) :
  let r := AdminUpload.handleFileUpload read sheet_to_json (Some file) outcome st in
  AdminUpload.handleFileUpload read sheet_to_json (@None File) outcome st = (st, [])
  /\ AdminUpload.uploading (fst r) = false
  /\ (AdminUpload.error (fst r) = None <->
      exists data wb rows,
        outcome = AdminUpload.ReaderLoad data
        /\ read data = Return wb
        /\ sheet_to_json (AdminUpload.firstSheetUnchecked wb) = Return rows
        /\ snd r = [AdminUpload.ConsoleLog rows;
                    AdminUpload.Alert AdminUpload.successMessage;
                    AdminUpload.Navigate "/"])
  /\ (is_Some (AdminUpload.error (fst r)) -> snd r = [])
  /\ (outcome = AdminUpload.ReaderError ->
      AdminUpload.error (fst r) = Some "Error reading file")
  /\ (forall data, outcome = AdminUpload.ReaderLoad data ->
      is_Some (AdminUpload.error (fst r)) ->
      AdminUpload.error (fst r) = Some AdminUpload.parseErrorMessage).
Proof.
  intros r. subst r. split; [reflexivity |].
  destruct outcome as [e | | data]; simpl.
  - repeat split; try discriminate.
    intros (data & wb & rows & [=] & _).
  - repeat split; try discriminate.
    intros (data & wb & rows & [=] & _).
  - destruct (onload_cases read sheet_to_json data
                {| AdminUpload.uploading := true; AdminUpload.error := None |})
      as [(wb & rows & Hread & Hrows & ->) | (Hfail & ->)]; simpl.
    + repeat split; eauto 10; try discriminate; try (intros [x Hx]; discriminate).
      intros data' _ [x Hx]. discriminate.
    + repeat split; try discriminate; auto.
      intros (data' & wb & rows & [= <-] & Hread & Hrows & _).
      destruct Hfail as [(e & He) | (wb' & e & Hwb & He)]; congruence.
Qed.

(** X13: the upload page and the listing hook disagree on two kinds of
    file, given the same decoder on the same bytes.  A workbook without
    sheets, and a workbook whose first sheet has no usable row, are
    reported as uploaded successfully by the page (when [sheet_to_json]
    returns, as it does on a missing sheet), and as an error with no Jobs
    by the hook. *)
Theorem X13_upload_accepts_what_the_hook_rejects
  {File ArrayBuffer WorkSheet : Type} (legacyDateParse : string -> bool)
  (readUpload : option ArrayBuffer -> result (@WorkBook WorkSheet))
  (read : ArrayBuffer -> result (@WorkBook WorkSheet))
  (sheet_to_json : option WorkSheet -> result (list RawJobData))
  (clock : nat -> Z) (file : File) (arrayBuffer : ArrayBuffer)
  (wb : @WorkBook WorkSheet) (rows : list RawJobData) (st : AdminUpload.State) :
  readUpload (Some arrayBuffer) = Return wb ->
  read arrayBuffer = Return wb ->
  sheet_to_json (AdminUpload.firstSheetUnchecked wb) = Return rows ->
  SheetNames wb = [] \/ Forall (fun row => usable row = false) rows ->
  AdminUpload.handleFileUpload readUpload sheet_to_json (Some file)
    (AdminUpload.ReaderLoad (Some arrayBuffer)) st
  = ({| AdminUpload.uploading := false; AdminUpload.error := None |},
     [AdminUpload.ConsoleLog rows; AdminUpload.Alert AdminUpload.successMessage;
      AdminUpload.Navigate "/"])
  /\ jobs (useJobs legacyDateParse read sheet_to_json clock
             (Response true (Return arrayBuffer))) = []
  /\ is_Some (error (useJobs legacyDateParse read sheet_to_json clock
                       (Response true (Return arrayBuffer)))).
Proof.
  intros HreadU Hread Hrows Hbad. split.
  - unfold AdminUpload.handleFileUpload, AdminUpload.onload, AdminUpload.onload_try.
    rewrite HreadU. simpl. rewrite Hrows. reflexivity.
  - unfold useJobs, fetchJobs, fetchJobs_try. simpl.
    destruct (ingest_cases legacyDateParse read sheet_to_json clock arrayBuffer)
      as [(e & He & ->) | [(wb' & Hwb & Hnil & ->) | [(wb' & e & Hwb & _ & He & ->)
         | (wb' & rows' & Hwb & Hne & Hr & [(_ & ->) | (Hsome & ->)])]]];
      simpl; try (split; [reflexivity | eauto]).
    exfalso. assert (wb' = wb) by congruence. subst wb'.
    destruct Hbad as [Hnil | Hun]; [contradiction |].
    assert (Hsheet : AdminUpload.firstSheetUnchecked wb = firstSheet wb).
    { unfold AdminUpload.firstSheetUnchecked, firstSheet.
      destruct (SheetNames wb); [contradiction | reflexivity]. }
    rewrite Hsheet in Hrows. assert (rows' = rows) by congruence. subst rows'.
    apply Hsome. by apply survivors_none.
Qed.

Lemma X13_witness :
  AdminUpload.handleFileUpload emptyUploadRead sampleSheetToJson (Some tt)
    (AdminUpload.ReaderLoad (Some [sampleRow])) 
    {| AdminUpload.uploading := false; AdminUpload.error := None |}
  = ({| AdminUpload.uploading := false; AdminUpload.error := None |},
     [AdminUpload.ConsoleLog []; AdminUpload.Alert AdminUpload.successMessage;
      AdminUpload.Navigate "/"])
  /\ jobs (useJobs strictEngine emptyRead sampleSheetToJson sampleClock
             (Response true (Return [sampleRow]))) = []
  /\ is_Some (error (useJobs strictEngine emptyRead sampleSheetToJson sampleClock
                       (Response true (Return [sampleRow])))).
Proof.
  apply (X13_upload_accepts_what_the_hook_rejects strictEngine emptyUploadRead emptyRead
           sampleSheetToJson sampleClock tt [sampleRow]
           {| SheetNames := []; Sheets := ∅ |} []).
  - reflexivity.
  - reflexivity.
  - reflexivity.
  - left. reflexivity.
Defined.
